(** * The PDF parser microservice (services/pdf-parser/main.py)

    A shallow embedding of the two request handlers of the service,
    [health_check] (GET /health) and [parse_pdf] (POST /parse), and the
    properties of their request/response contract.

    The handlers are Python coroutines that log, read the upload, call the
    PDF library and either return a value or raise.  They are embedded as
    state-passing functions over a [world], the ordered record of every
    observable effect performed so far (log lines, the read of the upload,
    calls into the PDF library), with an explicit "returned / raised"
    completion.  The PDF library itself is outside the repository: it is a
    parameter ([PdfReader]) of everything below.

    Scope of the model:
    - a page text and a document-information value are a [str] or [None],
      so the JSON encoding of the response cannot fail;
    - what the upload and the library raise are instances of [Exception],
      the class the [except] clause of the handler catches;
    - a reader is the data the handler reads from it: the list of its pages
      with what [extract_text] does on each, and its [metadata];
    - file names are strings over 8-bit characters, and [lower] acts on the
      letters A-Z, the only ones whose lower case is in [".pdf"]. *)

From Stdlib Require Import ZArith Ascii String.
From Stdlib.Strings Require Import Byte.
From stdpp Require Import base list strings pretty gmap.

#[local] Set Warnings "-register-all".
#[local] Open Scope Z_scope.

(** ** Python values and exceptions *)

(** A Python [bytes] object. *)
Definition bytes := list byte.

(** The values that flow from the PDF library into the handler: a page text
    and a document-information entry are a [str] or [None]. *)
Inductive pyval : Type :=
| PyNone
| PyStr (s : string).

(** An exception instance of class [Exception], as far as the handler looks
    at it: its class name and [str(e)]. *)
Record exception : Type := mkException {
  exc_class : string;
  exc_str : string
}.

(** How a Python call ends. *)
Inductive completion (A : Type) : Type :=
| Normal (a : A)
| Raised (e : exception).
Arguments Normal {A} a.
Arguments Raised {A} e.

(** The content handed to the JSON encoder of the web framework. *)
Inductive json : Type :=
| JNull
| JInt (z : Z)
| JStr (s : string)
| JObject (fields : list (string * json)).

(** [None] is rendered as [null], a [str] as a JSON string. *)
Definition to_json (v : pyval) : json :=
  match v with
  | PyNone => JNull
  | PyStr s => JStr s
  end.

(** ** Python dictionaries with string keys, in insertion order *)

Fixpoint dict_get {V : Type} (d : list (string * V)) (k : string) : option V :=
  match d with
  | [] => None
  | (k', v) :: d' => if String.eqb k' k then Some v else dict_get d' k
  end.

(** [d[k] = v]: an existing key keeps its position, a new one goes last. *)
Fixpoint dict_set {V : Type} (d : list (string * V)) (k : string) (v : V)
  : list (string * V) :=
  match d with
  | [] => [(k, v)]
  | (k', v') :: d' =>
      if String.eqb k' k then (k', v) :: d' else (k', v') :: dict_set d' k v
  end.

(** Member access on a JSON value; [None] when the value is not an object or
    has no such member. *)
Definition member (k : string) (j : json) : option json :=
  match j with
  | JObject fields => dict_get fields k
  | _ => None
  end.

(** ** Strings *)

(** The line feed, Python's ["\n"]. *)
Definition LF : string := String (ascii_of_nat 10) EmptyString.

(** [c.lower()] on the letters A-Z; a character outside A-Z is left as it
    is (file names are taken over the 8-bit alphabet of [string]). *)
Definition lower_char (c : ascii) : ascii :=
  let n := nat_of_ascii c in
  if ((65 <=? n) && (n <=? 90))%nat then ascii_of_nat (n + 32) else c.

Fixpoint lower (s : string) : string :=
  match s with
  | EmptyString => EmptyString
  | String c s' => String (lower_char c) (lower s')
  end.

(** [s.endswith(suffix)]: the last [len(suffix)] characters of [s] are
    [suffix]. *)
Definition endswith (s suffix : string) : bool :=
  let n := String.length s in
  let m := String.length suffix in
  ((m <=? n)%nat && String.eqb (String.substring (n - m) m s) suffix).

(** [bool(v)] for a page text: [None] and the empty string are falsy. *)
Definition truthy (v : pyval) : bool :=
  match v with
  | PyNone => false
  | PyStr s => negb (String.eqb s "")
  end.

(** [sep.join(items)] on a list.  Every item must be a [str]; the first one
    that is not raises [TypeError] naming its index. *)
Definition join_type_error (i : nat) : exception :=
  mkException "TypeError"
    ("sequence item " +:+ pretty i +:+ ": expected str instance, NoneType found").

Fixpoint join_from (sep : string) (i : nat) (acc : string) (items : list pyval)
  : completion string :=
  match items with
  | [] => Normal acc
  | PyStr s :: rest =>
      join_from sep (S i) (acc +:+ (if (i =? 0)%nat then "" else sep) +:+ s) rest
  | PyNone :: _ => Raised (join_type_error i)
  end.

Definition str_join (sep : string) (items : list pyval) : completion string :=
  join_from sep 0 "" items.

(** ** The world: observable effects, in the order they happen *)

Inductive level : Type := INFO | ERROR.

Inductive event : Type :=
| Log (lvl : level) (msg : string)       (* logger.info / logger.error *)
| FileRead                               (* await file.read() *)
| OpenReader (contents : bytes)          (* PdfReader(io.BytesIO(contents)) *)
| ExtractText (page_num : nat).          (* page.extract_text() *)

Definition world := list event.

(** A computation of the handler: from the world before to its completion
    and the world after. *)
Definition M (A : Type) : Type := world -> completion A * world.

Definition ret {A} (a : A) : M A := fun w => (Normal a, w).

Definition raise {A} (e : exception) : M A := fun w => (Raised e, w).

Definition bind {A B} (m : M A) (k : A -> M B) : M B :=
  fun w =>
    match m w with
    | (Normal a, w') => k a w'
    | (Raised e, w') => (Raised e, w')
    end.

Notation "x <- m ;; k" := (bind m (fun x => k))
  (at level 100, m at next level, right associativity).
Notation "m ;;; k" := (bind m (fun _ => k))
  (at level 100, right associativity).

(** Perform an effect: it is recorded after everything that came before. *)
Definition emit (ev : event) : M unit := fun w => (Normal tt, w ++ [ev]).

(** An external call whose completion is [c], recorded as [ev]. *)
Definition call {A} (ev : event) (c : completion A) : M A :=
  fun w => (c, w ++ [ev]).

(** A pure Python operation that may raise. *)
Definition lift {A} (c : completion A) : M A := fun w => (c, w).

Definition logger_info (msg : string) : M unit := emit (Log INFO msg).
Definition logger_error (msg : string) : M unit := emit (Log ERROR msg).

(** ** The upload and the PDF library *)

(** [UploadFile]: the file name sent by the client, if any, and what
    [await file.read()] does. *)
Record UploadFile : Type := mkUploadFile {
  filename : option string;
  read : completion bytes
}.

(** A page object: what [page.extract_text()] does. *)
Record PageObject : Type := mkPage {
  extract_text : completion pyval
}.

(** A [PdfReader] object: [reader.pages] and [reader.metadata] (the document
    information dictionary, or [None]). *)
Record Reader : Type := mkReader {
  pages : list PageObject;
  metadata : option (gmap string pyval)
}.

(** What a handler invocation ends with: a response built by the handler,
    an [HTTPException] raised by the handler, or an exception that leaves
    the handler uncaught. *)
Inductive outcome : Type :=
| Response (content : json)
| HTTPException (status_code : Z) (detail : string)
| Uncaught (e : exception).

(** ** GET /health *)

Definition health_check : world -> outcome * world :=
  fun w =>
    (Response (JObject [("status", JStr "healthy"); ("service", JStr "pdf-parser")]), w).

(** ** POST /parse *)

Section Handler.

(** The PDF library: what [PdfReader(io.BytesIO(contents))] does on the
    bytes of an upload. *)
Variable PdfReader : bytes -> completion Reader.

(** The two log lines written for the first page. *)
Definition log_first_page (page_text : pyval) : M unit :=
  logger_info ("First page text length: " +:+
    pretty (if truthy page_text
            then match page_text with PyStr s => String.length s | PyNone => 0%nat end
            else 0%nat)) ;;;
  logger_info ("First 100 chars: " +:+
    (if truthy page_text
     then match page_text with PyStr s => String.substring 0 100 s | PyNone => "" end
     else "EMPTY")).

(** [for page_num, page in enumerate(reader.pages)], started at
    [page_num] with the [text_parts] collected so far. *)
Fixpoint extract_pages (ps : list PageObject) (page_num : nat)
    (text_parts : list pyval) : M (list pyval) :=
  match ps with
  | [] => ret text_parts
  | page :: rest =>
      page_text <- call (ExtractText page_num) (extract_text page) ;;
      (if (page_num =? 0)%nat then log_first_page page_text else ret tt) ;;;
      extract_pages rest (S page_num) (text_parts ++ [page_text])
  end.

(** [bool(reader.metadata)]: [None] and the empty dictionary are falsy. *)
Definition has_metadata (md : option (gmap string pyval)) : bool :=
  match md with
  | None => false
  | Some d => negb (size d =? 0)%nat
  end.

(** [reader.metadata.get(key)]. *)
Definition metadata_get (md : option (gmap string pyval)) (key : string) : pyval :=
  match md with
  | None => PyNone
  | Some d => default PyNone (d !! key)
  end.

(** The [metadata] dictionary of the response. *)
Definition build_metadata (reader : Reader) : list (string * json) :=
  let metadata0 :=
    [("pages", JInt (Z.of_nat (length (pages reader))));
     ("author", JNull);
     ("title", JNull);
     ("createdDate", JNull)] in
  if has_metadata (metadata reader) then
    let metadata1 :=
      dict_set metadata0 "author" (to_json (metadata_get (metadata reader) "/Author")) in
    let metadata2 :=
      dict_set metadata1 "title" (to_json (metadata_get (metadata reader) "/Title")) in
    dict_set metadata2 "createdDate"
      (to_json (metadata_get (metadata reader) "/CreationDate"))
  else metadata0.

(** The body of the [try] block.  In the last log line [metadata['pages']]
    is written as the page count it was set to when the dictionary was
    built; no assignment changes it afterwards. *)
Definition parse_body (file : UploadFile) (name : string) : M json :=
  contents <- call FileRead (read file) ;;
  reader <- call (OpenReader contents) (PdfReader contents) ;;
  text_parts <- extract_pages (pages reader) 0 [] ;;
  full_text <- lift (str_join LF text_parts) ;;
  logger_info ("Total extracted text length: " +:+ pretty (String.length full_text)) ;;;
  let metadata := build_metadata reader in
  logger_info ("Successfully parsed PDF: " +:+ name +:+ " (" +:+
               pretty (length (pages reader)) +:+ " pages, " +:+
               pretty (String.length full_text) +:+ " chars)") ;;;
  ret (JObject [("text", JStr full_text); ("metadata", JObject metadata)]).

(** [file.filename.lower()] when [file.filename] is [None]. *)
Definition no_lower : exception :=
  mkException "AttributeError" "'NoneType' object has no attribute 'lower'".

(** The handler.  The suffix test is outside the [try]; the [except
    Exception] clause logs and raises the 500. *)
Definition parse_pdf (file : UploadFile) : world -> outcome * world :=
  fun w =>
    match filename file with
    | None => (Uncaught no_lower, w)
    | Some name =>
        if negb (endswith (lower name) ".pdf") then
          (HTTPException 400 "File must be a PDF", w)
        else
          match parse_body file name w with
          | (Normal content, w') => (Response content, w')
          | (Raised e, w') =>
              (HTTPException 500 ("PDF parsing failed: " +:+ exc_str e),
               w' ++ [Log ERROR ("Error parsing PDF " +:+ name +:+ ": " +:+ exc_str e)])
          end
    end.

End Handler.

(** ** The HTTP view of an outcome

    The framework answers a returned response with status 200 and its
    content, an [HTTPException] with its status code and the body
    [{"detail": detail}], and an uncaught exception with its own plain
    500 page. *)

Inductive body : Type :=
| JsonBody (j : json)
| TextBody (s : string).

Definition http_status (o : outcome) : Z :=
  match o with
  | Response _ => 200
  | HTTPException status_code _ => status_code
  | Uncaught _ => 500
  end.

Definition http_body (o : outcome) : body :=
  match o with
  | Response content => JsonBody content
  | HTTPException _ detail => JsonBody (JObject [("detail", JStr detail)])
  | Uncaught _ => TextBody "Internal Server Error"
  end.

(** ** The service: requests handled one after the other *)

Inductive request : Type :=
| GetHealth
| PostParse (file : UploadFile).

Definition handle (PdfReader : bytes -> completion Reader) (r : request)
  : world -> outcome * world :=
  match r with
  | GetHealth => health_check
  | PostParse file => parse_pdf PdfReader file
  end.

(** The world after a sequence of requests. *)
Definition serve (PdfReader : bytes -> completion Reader) (rs : list request)
  (w : world) : world :=
  fold_left (fun w r => snd (handle PdfReader r w)) rs w.

(** ** Vocabulary of the properties *)




(** The calls of [page.extract_text()] recorded in a world. *)
Definition is_extraction (ev : event) : bool :=
  match ev with
  | ExtractText _ => true
  | _ => false
  end.

Definition extractions (w : world) : nat := length (List.filter is_extraction w).

(** The calls into the upload and the PDF library recorded in a world:
    everything but the log lines. *)
Definition is_log (ev : event) : bool :=
  match ev with
  | Log _ _ => true
  | _ => false
  end.

Definition library_calls (w : world) : list event :=
  List.filter (fun ev => negb (is_log ev)) w.

(** [raises PdfReader file e]: handling the upload [file], the steps of the
    [try] block raise [e].  Python stops at the first step that raises: the
    read of the body, the construction of the reader, the first page whose
    extraction raises, or the join of the page texts. *)
Inductive raises (PdfReader : bytes -> completion Reader) (file : UploadFile)
  : exception -> Prop :=
| raises_read e :
    read file = Raised e ->
    raises PdfReader file e
| raises_open contents e :
    read file = Normal contents ->
    PdfReader contents = Raised e ->
    raises PdfReader file e
| raises_extract contents reader before values page after e :
    read file = Normal contents ->
    PdfReader contents = Normal reader ->
    pages reader = before ++ page :: after ->
    map extract_text before = map Normal values ->
    extract_text page = Raised e ->
    raises PdfReader file e
| raises_join contents reader values e :
    read file = Normal contents ->
    PdfReader contents = Normal reader ->
    map extract_text (pages reader) = map Normal values ->
    str_join LF values = Raised e ->
    raises PdfReader file e.

(** The content of the response for a reader whose pages hold the given
    texts: the texts joined by newlines, and the metadata of the reader. *)
Definition content_of (reader : Reader) (texts : list string) : json :=
  JObject [("text", JStr (String.concat LF texts));
           ("metadata", JObject (build_metadata reader))].

(** The response field for a document-information key: the value under
    the key when the reader has a dictionary that holds the key, and null
    when the key is missing or there is no dictionary. *)
Definition document_info (reader : Reader) (key : string) : json :=
  match metadata reader with
  | Some d =>
      match d !! key with
      | Some v => to_json v
      | None => JNull
      end
  | None => JNull
  end.

(** A computation is framed when it only appends to the world and never
    looks at what is already there. *)
Definition framed {A} (m : M A) : Prop :=
  forall w, m w = (fst (m []), w ++ snd (m [])).

(** The [ERROR] lines recorded in a world. *)
Definition is_error (ev : event) : bool :=
  match ev with
  | Log ERROR _ => true
  | _ => false
  end.

Definition error_lines (w : world) : nat := length (List.filter is_error w).

(** The outcomes that are the 500 raised by the [except] clause. *)
Definition is_failure (o : outcome) : bool :=
  match o with
  | HTTPException status_code _ => Z.eqb status_code 500
  | _ => false
  end.

(** The outcomes of a sequence of requests, in the order they are handled. *)
Fixpoint outcomes (PdfReader : bytes -> completion Reader) (rs : list request)
    (w : world) : list outcome :=
  match rs with
  | [] => []
  | r :: rs' =>
      fst (handle PdfReader r w) :: outcomes PdfReader rs' (snd (handle PdfReader r w))
  end.

(** The outcomes that are a response of the handler. *)
Definition is_response (o : outcome) : bool :=
  match o with
  | Response _ => true
  | _ => false
  end.

(** A computation is quiet when it writes no [ERROR] line. *)
Definition quiet {A} (m : M A) : Prop :=
  forall w, error_lines (snd (m w)) = error_lines w.

(** The pages the loop gets to: all of them, or those up to and including
    the first one whose extraction raises. *)
Fixpoint visited (ps : list PageObject) : nat :=
  match ps with
  | [] => 0
  | page :: rest =>
      match extract_text page with
      | Normal _ => S (visited rest)
      | Raised _ => 1
      end
  end.

(** ** Sample documents and uploads *)

Definition page_of (s : string) : PageObject := mkPage (Normal (PyStr s)).

(** A three-page report whose middle page holds no text. *)
Definition report : Reader :=
  mkReader [page_of "Quarterly report"; page_of ""; page_of "Totals"]
           (Some {[ "/Author" := PyStr "J. Doe" ]}).

(** A two-page scan: for its second page the extraction returns [None]. *)
Definition scan : Reader :=
  mkReader [page_of "Cover"; mkPage (Normal PyNone)] None.

(** A small stand-in for the PDF library: it knows the two documents above
    by their bytes ("%PDF", and "%PDF" followed by a zero byte) and fails on
    everything else. *)
Definition sample_PdfReader (contents : bytes) : completion Reader :=
  match contents with
  | [x25; x50; x44; x46] => Normal report
  | [x25; x50; x44; x46; x00] => Normal scan
  | _ => Raised (mkException "PdfReadError" "EOF marker not found")
  end.

(** Another stand-in: the same on the bytes of the report, and nothing but
    failures elsewhere. *)
Definition other_PdfReader (contents : bytes) : completion Reader :=
  match contents with
  | [x25; x50; x44; x46] => Normal report
  | _ => Raised (mkException "PdfReadError" "Cannot read an empty file")
  end.

Definition report_upload : UploadFile :=
  mkUploadFile (Some "report.PDF") (Normal [x25; x50; x44; x46]).

Definition scan_upload : UploadFile :=
  mkUploadFile (Some "scan.pdf") (Normal [x25; x50; x44; x46; x00]).

Definition broken_upload : UploadFile :=
  mkUploadFile (Some "broken.pdf") (Normal [x6f; x6f; x70; x73]).

Definition notes_upload : UploadFile :=
  mkUploadFile (Some "notes.txt") (Normal [x68; x69]).


(** A three-page document whose second page cannot be extracted, and a
    stand-in library that builds it from any bytes. *)
Definition torn : Reader :=
  mkReader [page_of "Intro";
            mkPage (Raised (mkException "PdfReadError" "Invalid content stream"));
            page_of "Appendix"]
           None.

Definition torn_PdfReader (contents : bytes) : completion Reader := Normal torn.

Definition torn_upload : UploadFile :=
  mkUploadFile (Some "torn.pdf") (Normal [x25; x50; x44; x46; x01]).

(** The report again, as a library would build it from a file that also
    records its producer and has an empty title entry. *)
Definition report_with_producer : Reader :=
  mkReader [page_of "Quarterly report"; page_of ""; page_of "Totals"]
           (Some (<[ "/Producer" := PyStr "pdfTeX" ]>
                    (<[ "/Title" := PyNone ]> {[ "/Author" := PyStr "J. Doe" ]}))).

Definition producer_PdfReader (contents : bytes) : completion Reader :=
  Normal report_with_producer.



(** * The test script (services/pdf-parser/test.py)

    The script calls the two endpoints of a running service over HTTP and
    prints what it gets.  It is embedded like the handlers, over the ordered
    record of what it prints, requests and opens.  What the network and the
    file system answer is a parameter of the script ([requests_get],
    [requests_post], [open_rb]), and so is the text Python prints for a
    dictionary ([dict_repr]).  Characters outside ASCII in the messages of
    the script stand as their UTF-8 bytes. *)

Module TestScript.

(** A [requests.Response] as the script reads it: [response.status_code],
    [response.text] and what [response.json()] does. *)
Record HttpResponse : Type := mkHttpResponse {
  status_code : Z;
  text : string;
  json_body : completion json
}.

Inductive effect : Type :=
| Print (line : string)                      (* print(line) *)
| Get (url : string)                         (* requests.get(url) *)
| Post (url filename : string) (data : bytes) (content_type : string)
                                             (* requests.post(url, files=...) *)
| Open (path : string).                      (* open(path, 'rb') *)

Definition console := list effect.

Definition IO (A : Type) : Type := console -> completion A * console.

Definition io_ret {A} (a : A) : IO A := fun c => (Normal a, c).

Definition io_bind {A B} (m : IO A) (k : A -> IO B) : IO B :=
  fun c =>
    match m c with
    | (Normal a, c') => k a c'
    | (Raised e, c') => (Raised e, c')
    end.

Notation "x <~ m ;; k" := (io_bind m (fun x => k))
  (at level 100, m at next level, right associativity).
Notation "m ;;~ k" := (io_bind m (fun _ => k))
  (at level 100, right associativity).

Definition io_call {A} (ef : effect) (r : completion A) : IO A :=
  fun c => (r, c ++ [ef]).

Definition io_lift {A} (r : completion A) : IO A := fun c => (r, c).

Definition print (line : string) : IO unit := io_call (Print line) (Normal tt).

(** [value[key]] for a string key.  Exception texts are those of
    CPython 3.11. *)
Definition getitem (value : json) (key : string) : completion json :=
  match value with
  | JObject d =>
      match dict_get d key with
      | Some v => Normal v
      | None => Raised (mkException "KeyError" ("'" +:+ key +:+ "'"))
      end
  | JStr _ =>
      Raised (mkException "TypeError" "string indices must be integers, not 'str'")
  | JInt _ => Raised (mkException "TypeError" "'int' object is not subscriptable")
  | JNull => Raised (mkException "TypeError" "'NoneType' object is not subscriptable")
  end.

(** [len(value)]. *)
Definition py_len (value : json) : completion nat :=
  match value with
  | JStr s => Normal (String.length s)
  | JObject d => Normal (length d)
  | JInt _ => Raised (mkException "TypeError" "object of type 'int' has no len()")
  | JNull => Raised (mkException "TypeError" "object of type 'NoneType' has no len()")
  end.

(** [value[:n]]. *)
Definition slice_to (n : nat) (value : json) : completion json :=
  match value with
  | JStr s => Normal (JStr (String.substring 0 n s))
  | JObject _ => Raised (mkException "TypeError" "unhashable type: 'slice'")
  | JInt _ => Raised (mkException "TypeError" "'int' object is not subscriptable")
  | JNull => Raised (mkException "TypeError" "'NoneType' object is not subscriptable")
  end.

(** [s * n] on a string. *)
Fixpoint str_mul (s : string) (n : nat) : string :=
  match n with
  | O => ""
  | S n' => s +:+ str_mul s n'
  end.

(** How the script ends when nothing is raised: it runs to its last
    line, or it calls [sys.exit(code)]. *)
Inductive ending : Type :=
| Finished
| SystemExit (code : Z).

Section Script.

Variable requests_get : string -> completion HttpResponse.
Variable requests_post : string -> string -> bytes -> string -> completion HttpResponse.
Variable open_rb : string -> completion bytes.
Variable dict_repr : list (string * json) -> string.

(** [str(value)], as [print] and the f-strings write a decoded value. *)
Definition py_str (value : json) : string :=
  match value with
  | JNull => "None"
  | JInt z => pretty z
  | JStr s => s
  | JObject d => dict_repr d
  end.

Definition test_health : IO bool :=
  response <~ io_call (Get "http://localhost:8001/health")
                      (requests_get "http://localhost:8001/health") ;;
  print ("Health check: " +:+ pretty (status_code response)) ;;~
  body <~ io_lift (json_body response) ;;
  print (py_str body) ;;~
  io_ret (status_code response =? 200).

Definition test_parse_pdf (pdf_path : string) : IO bool :=
  f <~ io_call (Open pdf_path) (open_rb pdf_path) ;;
  response <~ io_call (Post "http://localhost:8001/parse" "test.pdf" f "application/pdf")
                      (requests_post "http://localhost:8001/parse" "test.pdf" f
                                     "application/pdf") ;;
  print (LF +:+ "Parse PDF: " +:+ pretty (status_code response)) ;;~
  if status_code response =? 200 then
    result <~ io_lift (json_body response) ;;
    metadata <~ io_lift (getitem result "metadata") ;;
    pages <~ io_lift (getitem metadata "pages") ;;
    print ("Pages: " +:+ py_str pages) ;;~
    text1 <~ io_lift (getitem result "text") ;;
    n <~ io_lift (py_len text1) ;;
    print ("Text length: " +:+ pretty n +:+ " characters") ;;~
    text2 <~ io_lift (getitem result "text") ;;
    first <~ io_lift (slice_to 200 text2) ;;
    print (LF +:+ "First 200 characters:" +:+ LF +:+ py_str first +:+ "...") ;;~
    io_ret true
  else
    print ("Error: " +:+ text response) ;;~
    io_ret false.

(** The block run when the file is the main program, on [sys.argv].  The
    last line of the block is reached from the two branches that do not
    call [sys.exit]. *)
Definition main (argv : list string) : IO ending :=
  let last_line := (print (LF +:+ "✓ All tests passed!") ;;~ io_ret Finished) in
  print ("Testing PDF Parser Service" +:+ LF +:+ str_mul "=" 50) ;;~
  healthy <~ test_health ;;
  if negb healthy then
    print "❌ Health check failed!" ;;~
    io_ret (SystemExit 1)
  else
    print "✓ Health check passed" ;;~
    match argv with
    | _ :: pdf_path :: _ =>
        print (LF +:+ "Testing with PDF: " +:+ pdf_path) ;;~
        passed <~ test_parse_pdf pdf_path ;;
        if passed then
          print (LF +:+ "✓ PDF parsing passed") ;;~
          last_line
        else
          print (LF +:+ "❌ PDF parsing failed") ;;~
          io_ret (SystemExit 1)
    | _ =>
        print (LF +:+ "Skipping PDF test (no file provided)") ;;~
        print "Usage: python test.py <path-to-pdf>" ;;~
        last_line
    end.

End Script.

(** What a client reads of the outcome of a handler, over a connection
    that delivers the answer of the framework as it is: the status and the
    body of [http_status] and [http_body], the body as the text [encode]
    gives for JSON. *)
Definition respond (encode : json -> string) (o : outcome) : HttpResponse :=
  mkHttpResponse
    (http_status o)
    (match http_body o with
     | JsonBody j => encode j
     | TextBody s => s
     end)
    (match http_body o with
     | JsonBody j => Normal j
     | TextBody s =>
         Raised (mkException "JSONDecodeError"
                             "Expecting value: line 1 column 1 (char 0)")
     end).

(** The upload the service receives from [test_parse_pdf] for a file with
    the bytes [data]. *)
Definition posted (data : bytes) : UploadFile :=
  mkUploadFile (Some "test.pdf") (Normal data).

(** A connection to a service that runs on [sample_PdfReader], an encoder
    and a dictionary printer that show no detail, and a file system with one
    file per sample document. *)
Definition sample_encode (j : json) : string := "{...}".

Definition sample_dict_repr (d : list (string * json)) : string := "{...}".

Definition sample_get (url : string) : completion HttpResponse :=
  Normal (respond sample_encode (fst (health_check []))).

Definition sample_post (url filename : string) (data : bytes) (content_type : string)
  : completion HttpResponse :=
  Normal (respond sample_encode
            (fst (parse_pdf sample_PdfReader (mkUploadFile (Some filename) (Normal data)) []))).

Definition sample_open (path : string) : completion bytes :=
  if String.eqb path "report.bin" then Normal [x25; x50; x44; x46]
  else if String.eqb path "scan.bin" then Normal [x25; x50; x44; x46; x00]
  else Raised (mkException "FileNotFoundError"
                 ("[Errno 2] No such file or directory: '" +:+ path +:+ "'")).

End TestScript.

(** * Properties *)

(** ** Strings *)

#[local] Arguments String.append !_ _ / : simpl nomatch.

Lemma append_empty_r (s : string) : s +:+ "" = s.
Proof. induction s as [|c s IH]; simpl; [reflexivity | now rewrite IH]. Qed.

Lemma append_assoc (s1 s2 s3 : string) : (s1 +:+ s2) +:+ s3 = s1 +:+ s2 +:+ s3.
Proof. induction s1 as [|c s1 IH]; simpl; [reflexivity | now rewrite IH]. Qed.

Lemma length_append (s1 s2 : string) :
  String.length (s1 +:+ s2) = (String.length s1 + String.length s2)%nat.
Proof. induction s1 as [|c s1 IH]; simpl; [reflexivity | now rewrite IH]. Qed.

Lemma lower_length (s : string) : String.length (lower s) = String.length s.
Proof. induction s as [|c s IH]; simpl; [reflexivity | now rewrite IH]. Qed.

Lemma lower_append (s1 s2 : string) : lower (s1 +:+ s2) = lower s1 +:+ lower s2.
Proof. induction s1 as [|c s1 IH]; simpl; [reflexivity | now rewrite IH]. Qed.

Lemma substring_all (s : string) : String.substring 0 (String.length s) s = s.
Proof. induction s as [|c s IH]; simpl; [reflexivity | now rewrite IH]. Qed.

Lemma substring_skip (p s : string) (m : nat) :
  String.substring (String.length p) m (p +:+ s) = String.substring 0 m s.
Proof. induction p as [|c p IH]; simpl; [reflexivity | exact IH]. Qed.

(** A string is its first [k] characters followed by the rest. *)
Lemma substring_split (s : string) :
  forall k m : nat, (k + m)%nat = String.length s ->
    s = String.substring 0 k s +:+ String.substring k m s.
Proof.
  induction s as [|c s IH]; intros k m Hlen; simpl in Hlen.
  - destruct k, m; simpl in *; try discriminate; reflexivity.
  - destruct k as [|k]; simpl.
    + destruct m as [|m]; [discriminate|]. simpl.
      injection Hlen as Hlen. subst m. now rewrite substring_all.
    + f_equal. apply IH. lia.
Qed.

(** [endswith] decides "is some prefix followed by the suffix". *)
Lemma endswith_spec (s suffix : string) :
  endswith s suffix = true <-> exists p, s = p +:+ suffix.
Proof.
  unfold endswith. rewrite andb_true_iff, Nat.leb_le, String.eqb_eq. split.
  - intros [Hle Hsub].
    exists (String.substring 0 (String.length s - String.length suffix) s).
    pose proof (substring_split s (String.length s - String.length suffix)
                  (String.length suffix) ltac:(lia)) as Hsplit.
    now rewrite Hsub in Hsplit.
  - intros [p ->]. rewrite length_append. split; [lia|].
    replace (String.length p + String.length suffix - String.length suffix)%nat
      with (String.length p) by lia.
    rewrite substring_skip. apply substring_all.
Qed.

Lemma append_inj (s1 t1 s2 t2 : string) :
  String.length s1 = String.length t1 ->
  s1 +:+ s2 = t1 +:+ t2 -> s1 = t1 /\ s2 = t2.
Proof.
  revert t1. induction s1 as [|c s1 IH]; intros [|d t1] Hlen Heq;
    simpl in *; try discriminate.
  - now split.
  - injection Heq as -> Heq. injection Hlen as Hlen.
    destruct (IH t1 Hlen Heq) as [-> ->]. now split.
Qed.

(** Any string at least [m] long ends with exactly [m] characters. *)
Lemma split_at_end (s : string) (m : nat) :
  (m <= String.length s)%nat ->
  exists stem ext, s = stem +:+ ext /\ String.length ext = m.
Proof.
  induction s as [|c s IH]; simpl; intros Hm.
  - exists "", "". split; [reflexivity | simpl; lia].
  - destruct (decide (m = S (String.length s))) as [->|Hne].
    + exists "", (String c s). now split.
    + destruct IH as (stem & ext & -> & Hext); [lia|].
      exists (String c stem), ext. now split.
Qed.

(** The test of the handler, read on the file name itself: the name is a
    stem followed by four characters that lower-case to [".pdf"]. *)
Lemma pdf_suffix_spec (name : string) :
  endswith (lower name) ".pdf" = true <->
  exists stem ext, name = stem +:+ ext /\ lower ext = ".pdf".
Proof.
  rewrite endswith_spec. split.
  - intros [p Hp].
    assert (Hlen : (4 <= String.length name)%nat).
    { rewrite <- lower_length, Hp, length_append. simpl. lia. }
    destruct (split_at_end name 4 Hlen) as (stem & ext & -> & Hext).
    exists stem, ext. split; [reflexivity|].
    rewrite lower_append in Hp.
    apply append_inj in Hp as [_ Hp]; [exact Hp|].
    apply (f_equal String.length) in Hp.
    rewrite !length_append, !lower_length in Hp.
    rewrite lower_length. simpl in Hp. lia.
  - intros (stem & ext & -> & Hext). exists (lower stem).
    now rewrite lower_append, Hext.
Qed.

(** ** The handlers on the samples *)

Example lower_report : lower "report.PDF" = "report.pdf".
Proof. reflexivity. Qed.

Example endswith_samples :
  endswith (lower "report.PDF") ".pdf" = true
  /\ endswith (lower "a.PdF") ".pdf" = true
  /\ endswith (lower ".pdf") ".pdf" = true
  /\ endswith (lower "notes.txt") ".pdf" = false
  /\ endswith (lower "pdf") ".pdf" = false
  /\ endswith (lower "report.pdf.bak") ".pdf" = false
  /\ endswith (lower "") ".pdf" = false.
Proof. repeat split. Qed.

(** The report: the response, and every effect of the request in order. *)
Example report_run :
  parse_pdf sample_PdfReader report_upload []
  = (Response
       (JObject
          [("text", JStr ("Quarterly report" +:+ LF +:+ "" +:+ LF +:+ "Totals"));
           ("metadata",
            JObject [("pages", JInt 3); ("author", JStr "J. Doe");
                     ("title", JNull); ("createdDate", JNull)])]),
     [FileRead; OpenReader [x25; x50; x44; x46];
      ExtractText 0;
      Log INFO "First page text length: 16";
      Log INFO "First 100 chars: Quarterly report";
      ExtractText 1; ExtractText 2;
      Log INFO "Total extracted text length: 24";
      Log INFO "Successfully parsed PDF: report.PDF (3 pages, 24 chars)"]).
Proof. reflexivity. Qed.

(** Bytes that are no PDF: the library raises, the handler logs and
    answers 500. *)
Example broken_run :
  parse_pdf sample_PdfReader broken_upload []
  = (HTTPException 500 "PDF parsing failed: EOF marker not found",
     [FileRead; OpenReader [x6f; x6f; x70; x73];
      Log ERROR "Error parsing PDF broken.pdf: EOF marker not found"]).
Proof. reflexivity. Qed.

(** The scan: both pages are extracted, then the join raises on the
    second. *)
Example scan_run :
  parse_pdf sample_PdfReader scan_upload []
  = (HTTPException 500
       "PDF parsing failed: sequence item 1: expected str instance, NoneType found",
     [FileRead; OpenReader [x25; x50; x44; x46; x00];
      ExtractText 0;
      Log INFO "First page text length: 5";
      Log INFO "First 100 chars: Cover";
      ExtractText 1;
      Log ERROR
        "Error parsing PDF scan.pdf: sequence item 1: expected str instance, NoneType found"]).
Proof. reflexivity. Qed.

Example notes_run :
  parse_pdf sample_PdfReader notes_upload [FileRead]
  = (HTTPException 400 "File must be a PDF", [FileRead]).
Proof. reflexivity. Qed.

(** ** Joining *)

Lemma join_from_strs (sep : string) (ss : list string) :
  forall (i : nat) (acc s0 : string),
    join_from sep (S i) (acc +:+ s0) (map PyStr ss)
    = Normal (acc +:+ String.concat sep (s0 :: ss)).
Proof.
  induction ss as [|s ss IH]; intros i acc s0.
  - reflexivity.
  - cbn [map join_from Nat.eqb].
    replace ((acc +:+ s0) +:+ sep +:+ s) with ((acc +:+ s0 +:+ sep) +:+ s)
      by now rewrite !append_assoc.
    rewrite IH. cbn [String.concat]. now rewrite !append_assoc.
Qed.

(** On strings, [str_join] is the concatenation with the separator between
    consecutive items. *)
Lemma str_join_strs (sep : string) (ss : list string) :
  str_join sep (map PyStr ss) = Normal (String.concat sep ss).
Proof.
  destruct ss as [|s ss]; [reflexivity|].
  unfold str_join. cbn [map join_from Nat.eqb].
  change ("" +:+ "" +:+ s) with ("" +:+ s). now rewrite join_from_strs.
Qed.

Lemma join_from_None (sep : string) (ss : list string) (rest : list pyval) :
  forall (i : nat) (acc : string),
    join_from sep i acc (map PyStr ss ++ PyNone :: rest)
    = Raised (join_type_error (i + length ss)).
Proof.
  induction ss as [|s ss IH]; intros i acc; cbn [map app join_from length].
  - now rewrite Nat.add_0_r.
  - rewrite IH. do 2 f_equal. lia.
Qed.

(** The first [None] among the items makes [str_join] raise. *)
Lemma str_join_None (sep : string) (ss : list string) (rest : list pyval) :
  str_join sep (map PyStr ss ++ PyNone :: rest)
  = Raised (join_type_error (length ss)).
Proof. unfold str_join. now rewrite join_from_None. Qed.

(** A list of values is all strings, or has a first [None]. *)
Lemma pyvals_cases (items : list pyval) :
  (exists ss, items = map PyStr ss) \/
  (exists ss rest, items = map PyStr ss ++ PyNone :: rest).
Proof.
  induction items as [|v items IH].
  - left. now exists [].
  - destruct v as [|s].
    + right. now exists [], items.
    + destruct IH as [[ss ->] | (ss & rest & ->)].
      * left. now exists (s :: ss).
      * right. now exists (s :: ss), rest.
Qed.

Lemma str_join_Normal_inv (sep : string) (items : list pyval) (t : string) :
  str_join sep items = Normal t ->
  exists ss, items = map PyStr ss /\ t = String.concat sep ss.
Proof.
  destruct (pyvals_cases items) as [[ss ->] | (ss & rest & ->)].
  - rewrite str_join_strs. intros [= <-]. now exists ss.
  - rewrite str_join_None. discriminate.
Qed.

(** ** Counting newlines *)






(** ** The monad: framing and counting *)

Lemma framed_ret {A} (a : A) : framed (ret a).
Proof. intros w. unfold ret. simpl. now rewrite app_nil_r. Qed.

Lemma framed_lift {A} (c : completion A) : framed (lift c).
Proof. intros w. unfold lift. simpl. now rewrite app_nil_r. Qed.

Lemma framed_call {A} (ev : event) (c : completion A) : framed (call ev c).
Proof. intros w. reflexivity. Qed.

Lemma framed_emit (ev : event) : framed (emit ev).
Proof. intros w. reflexivity. Qed.

Lemma framed_bind {A B} (m : M A) (k : A -> M B) :
  framed m -> (forall a, framed (k a)) -> framed (bind m k).
Proof.
  intros Hm Hk w. unfold bind. rewrite (Hm w).
  destruct (m []) as [[a|e] evs]; simpl; [|reflexivity].
  rewrite (Hk a (w ++ evs)), (Hk a evs). simpl. now rewrite app_assoc.
Qed.

Create HintDb framed.
#[local] Hint Resolve framed_ret framed_lift framed_call framed_emit framed_bind : framed.

Lemma extractions_app (w1 w2 : world) :
  extractions (w1 ++ w2) = (extractions w1 + extractions w2)%nat.
Proof. unfold extractions. now rewrite List.filter_app, length_app. Qed.

Lemma library_calls_app (w1 w2 : world) :
  library_calls (w1 ++ w2) = library_calls w1 ++ library_calls w2.
Proof. unfold library_calls. apply List.filter_app. Qed.

(** ** The page loop *)

Lemma framed_log_first_page (page_text : pyval) : framed (log_first_page page_text).
Proof. unfold log_first_page, logger_info. auto with framed. Qed.

Lemma framed_extract_pages (ps : list PageObject) :
  forall n text_parts, framed (extract_pages ps n text_parts).
Proof.
  induction ps as [|page rest IH]; intros n text_parts; cbn [extract_pages].
  - auto with framed.
  - apply framed_bind; [auto with framed|]. intros page_text.
    apply framed_bind; [|auto].
    destruct (n =? 0)%nat; auto using framed_log_first_page with framed.
Qed.

(** After a page is extracted, only log lines are written before the next
    page is looked at. *)
Lemma first_page_step (n : nat) (page_text : pyval) (w : world) :
  exists logs,
    (if (n =? 0)%nat then log_first_page page_text else ret tt) w
    = (Normal tt, w ++ logs)
    /\ extractions logs = 0%nat.
Proof.
  destruct (n =? 0)%nat.
  - eexists [_; _]. split.
    + unfold log_first_page, logger_info, bind, emit.
      now rewrite <- app_assoc.
    + reflexivity.
  - exists []. split; [|reflexivity]. unfold ret. now rewrite app_nil_r.
Qed.

(** When every page returns a value, the loop returns the values in page
    order, after the ones it started with, and has called [extract_text]
    once per page. *)
Lemma extract_pages_ok (ps : list PageObject) :
  forall (values : list pyval) (n : nat) (text_parts : list pyval) (w : world),
    map extract_text ps = map Normal values ->
    exists evs,
      extract_pages ps n text_parts w = (Normal (text_parts ++ values), w ++ evs)
      /\ extractions evs = length ps.
Proof.
  induction ps as [|page rest IH]; intros [|v values] n text_parts w Hps;
    try discriminate.
  - exists []. now rewrite !app_nil_r.
  - injection Hps as Hpage Hrest.
    cbn [extract_pages]. unfold bind at 1. unfold call. rewrite Hpage.
    unfold bind at 1.
    destruct (first_page_step n v (w ++ [ExtractText n])) as (logs & -> & Hlogs).
    destruct (IH values (S n) (text_parts ++ [v]) ((w ++ [ExtractText n]) ++ logs) Hrest)
      as (evs & -> & Hevs).
    exists ([ExtractText n] ++ logs ++ evs). split.
    + now rewrite <- !app_assoc.
    + rewrite !extractions_app, Hlogs, Hevs. reflexivity.
Qed.

(** The loop stops at the first page whose extraction raises, with that
    exception; the pages after it are not looked at. *)
Lemma extract_pages_raise (before : list PageObject) :
  forall (values : list pyval) (page : PageObject) (after : list PageObject)
         (e : exception) (n : nat) (text_parts : list pyval) (w : world),
    map extract_text before = map Normal values ->
    extract_text page = Raised e ->
    exists evs,
      extract_pages (before ++ page :: after) n text_parts w = (Raised e, w ++ evs)
      /\ extractions evs = S (length before).
Proof.
  induction before as [|p before IH];
    intros [|v values] page after e n text_parts w Hbefore Hpage;
    try discriminate.
  - exists [ExtractText n]. cbn [app extract_pages]. unfold bind, call.
    now rewrite Hpage.
  - injection Hbefore as Hp Hbefore.
    cbn [app extract_pages]. unfold bind at 1. unfold call. rewrite Hp.
    unfold bind at 1.
    destruct (first_page_step n v (w ++ [ExtractText n])) as (logs & -> & Hlogs).
    destruct (IH values page after e (S n) (text_parts ++ [v])
                ((w ++ [ExtractText n]) ++ logs) Hbefore Hpage)
      as (evs & -> & Hevs).
    exists ([ExtractText n] ++ logs ++ evs). split.
    + now rewrite <- !app_assoc.
    + rewrite !extractions_app, Hlogs, Hevs. reflexivity.
Qed.

(** Either every page returns a value, or there is a first page that
    raises. *)
Lemma pages_cases (ps : list PageObject) :
  (exists values, map extract_text ps = map Normal values) \/
  (exists before values page after e,
      ps = before ++ page :: after
      /\ map extract_text before = map Normal values
      /\ extract_text page = Raised e).
Proof.
  induction ps as [|p ps IH].
  - left. now exists [].
  - destruct (extract_text p) as [v|e] eqn:Hp.
    + destruct IH as [[values Hvs] | (before & values & page & after & e & -> & Hvs & He)].
      * left. exists (v :: values). cbn [map]. now rewrite Hp, Hvs.
      * right. exists (p :: before), (v :: values), page, after, e.
        cbn [map]. now rewrite Hp, Hvs.
    + right. now exists [], [], p, ps, e.
Qed.

(** ** The [try] block *)

Lemma bind_Normal {A B} (m : M A) (k : A -> M B) (w w' : world) (a : A) :
  m w = (Normal a, w') -> bind m k w = k a w'.
Proof. unfold bind. now intros ->. Qed.

Lemma bind_Raised {A B} (m : M A) (k : A -> M B) (w w' : world) (e : exception) :
  m w = (Raised e, w') -> bind m k w = (Raised e, w').
Proof. unfold bind. now intros ->. Qed.

Section TryBlock.

Variable PdfReader : bytes -> completion Reader.
Variable file : UploadFile.
Variable name : string.

Lemma framed_parse_body : framed (parse_body PdfReader file name).
Proof.
  unfold parse_body, logger_info.
  repeat (apply framed_bind; [auto using framed_extract_pages with framed | intros ?]).
  auto with framed.
Qed.

Lemma parse_body_ok (contents : bytes) (reader : Reader) (texts : list string)
    (w : world) :
  read file = Normal contents ->
  PdfReader contents = Normal reader ->
  map extract_text (pages reader) = map Normal (map PyStr texts) ->
  exists evs,
    parse_body PdfReader file name w = (Normal (content_of reader texts), w ++ evs)
    /\ extractions evs = length (pages reader).
Proof.
  intros Hread Hopen Hpages. unfold parse_body.
  rewrite (bind_Normal _ _ w (w ++ [FileRead]) contents)
    by (unfold call; now rewrite Hread).
  rewrite (bind_Normal _ _ _ ((w ++ [FileRead]) ++ [OpenReader contents]) reader)
    by (unfold call; now rewrite Hopen).
  destruct (extract_pages_ok (pages reader) _ 0%nat []
              ((w ++ [FileRead]) ++ [OpenReader contents]) Hpages)
    as (evs & Hloop & Hevs).
  rewrite (bind_Normal _ _ _ _ _ Hloop). cbn [app].
  rewrite (bind_Normal _ _ _ _ (String.concat LF texts))
    by (unfold lift; now rewrite str_join_strs).
  unfold logger_info, bind, emit, ret.
  eexists. split.
  - unfold content_of. f_equal. rewrite <- !app_assoc. reflexivity.
  - rewrite !extractions_app, Hevs. unfold extractions.
    cbn [List.filter is_extraction length]. lia.
Qed.

Lemma parse_body_raises (e : exception) (w : world) :
  raises PdfReader file e ->
  exists evs, parse_body PdfReader file name w = (Raised e, w ++ evs).
Proof.
  intros [e' Hread
         |contents e' Hread Hopen
         |contents reader before values page after e' Hread Hopen Hps Hbefore Hpage
         |contents reader values e' Hread Hopen Hps Hjoin];
    unfold parse_body.
  - rewrite (bind_Raised _ _ w (w ++ [FileRead]) e')
      by (unfold call; now rewrite Hread).
    now eexists.
  - rewrite (bind_Normal _ _ w (w ++ [FileRead]) contents)
      by (unfold call; now rewrite Hread).
    rewrite (bind_Raised _ _ _ ((w ++ [FileRead]) ++ [OpenReader contents]) e')
      by (unfold call; now rewrite Hopen).
    eexists. now rewrite <- app_assoc.
  - rewrite (bind_Normal _ _ w (w ++ [FileRead]) contents)
      by (unfold call; now rewrite Hread).
    rewrite (bind_Normal _ _ _ ((w ++ [FileRead]) ++ [OpenReader contents]) reader)
      by (unfold call; now rewrite Hopen).
    rewrite Hps.
    destruct (extract_pages_raise before values page after e' 0%nat []
                ((w ++ [FileRead]) ++ [OpenReader contents]) Hbefore Hpage)
      as (evs & Hloop & _).
    rewrite (bind_Raised _ _ _ _ _ Hloop).
    eexists. now rewrite <- !app_assoc.
  - rewrite (bind_Normal _ _ w (w ++ [FileRead]) contents)
      by (unfold call; now rewrite Hread).
    rewrite (bind_Normal _ _ _ ((w ++ [FileRead]) ++ [OpenReader contents]) reader)
      by (unfold call; now rewrite Hopen).
    destruct (extract_pages_ok (pages reader) values 0%nat []
                ((w ++ [FileRead]) ++ [OpenReader contents]) Hps)
      as (evs & Hloop & _).
    rewrite (bind_Normal _ _ _ _ _ Hloop). cbn [app].
    rewrite (bind_Raised _ _ _
               (((w ++ [FileRead]) ++ [OpenReader contents]) ++ evs) e')
      by (unfold lift; now rewrite Hjoin).
    eexists. now rewrite <- !app_assoc.
Qed.

(** The cases of [raises] and the success case cover every upload. *)
Lemma upload_cases :
  (exists e, raises PdfReader file e) \/
  (exists contents reader texts,
      read file = Normal contents
      /\ PdfReader contents = Normal reader
      /\ map extract_text (pages reader) = map Normal (map PyStr texts)).
Proof.
  destruct (read file) as [contents|e] eqn:Hread;
    [|left; exists e; now apply raises_read].
  destruct (PdfReader contents) as [reader|e] eqn:Hopen;
    [|left; exists e; now apply raises_open with contents].
  destruct (pages_cases (pages reader))
    as [[values Hvs] | (before & values & page & after & e & Hps & Hvs & He)].
  - destruct (pyvals_cases values) as [[texts ->] | (ss & rest & ->)].
    + right. now exists contents, reader, texts.
    + left. eexists. eapply raises_join; eauto using str_join_None.
  - left. exists e. eapply raises_extract; eauto.
Qed.

(** A content is returned only in the success case, and then it is
    [content_of] the reader and its page texts. *)
Lemma parse_body_Normal_inv (w w' : world) (content : json) :
  parse_body PdfReader file name w = (Normal content, w') ->
  exists contents reader texts,
    read file = Normal contents
    /\ PdfReader contents = Normal reader
    /\ map extract_text (pages reader) = map Normal (map PyStr texts)
    /\ content = content_of reader texts
    /\ extractions w' = (extractions w + length (pages reader))%nat.
Proof.
  intros Hrun.
  destruct upload_cases as [[e He] | (contents & reader & texts & Hread & Hopen & Hps)].
  - destruct (parse_body_raises e w He) as [evs Hraise]. congruence.
  - destruct (parse_body_ok contents reader texts w Hread Hopen Hps)
      as (evs & Hok & Hevs).
    rewrite Hok in Hrun. injection Hrun as <- <-.
    exists contents, reader, texts. rewrite extractions_app, Hevs. auto.
Qed.

(** The [try] block raises only what [raises] describes. *)
Lemma parse_body_Raised_inv (w w' : world) (e : exception) :
  parse_body PdfReader file name w = (Raised e, w') ->
  raises PdfReader file e.
Proof.
  intros Hrun.
  destruct upload_cases as [[e' He] | (contents & reader & texts & Hread & Hopen & Hps)].
  - destruct (parse_body_raises e' w He) as [evs Hraise].
    rewrite Hraise in Hrun. now injection Hrun as <- _.
  - destruct (parse_body_ok contents reader texts w Hread Hopen Hps)
      as (evs & Hok & _).
    congruence.
Qed.

End TryBlock.

(** ** The handler *)

Section ParsePdf.

Variable PdfReader : bytes -> completion Reader.
Variable file : UploadFile.

(** A valid document under a PDF name is answered with its content. *)
Lemma parse_pdf_ok (name : string) (contents : bytes) (reader : Reader)
    (texts : list string) (w : world) :
  filename file = Some name ->
  endswith (lower name) ".pdf" = true ->
  read file = Normal contents ->
  PdfReader contents = Normal reader ->
  map extract_text (pages reader) = map Normal (map PyStr texts) ->
  exists evs,
    parse_pdf PdfReader file w = (Response (content_of reader texts), w ++ evs)
    /\ extractions evs = length (pages reader).
Proof.
  intros Hname Hpdf Hread Hopen Hps. unfold parse_pdf. rewrite Hname, Hpdf.
  destruct (parse_body_ok PdfReader file name contents reader texts w Hread Hopen Hps)
    as (evs & -> & Hevs).
  now exists evs.
Qed.

(** A failure of the [try] block under a PDF name is answered with the
    500 that carries its description. *)
Lemma parse_pdf_raises (name : string) (e : exception) (w : world) :
  filename file = Some name ->
  endswith (lower name) ".pdf" = true ->
  raises PdfReader file e ->
  exists evs,
    parse_pdf PdfReader file w
    = (HTTPException 500 ("PDF parsing failed: " +:+ exc_str e), w ++ evs).
Proof.
  intros Hname Hpdf He. unfold parse_pdf. rewrite Hname, Hpdf.
  destruct (parse_body_raises PdfReader file name e w He) as [evs ->].
  eexists. now rewrite <- app_assoc.
Qed.

(** A response comes only from a valid document under a PDF name. *)
Lemma parse_pdf_Response_inv (w w' : world) (content : json) :
  parse_pdf PdfReader file w = (Response content, w') ->
  exists name contents reader texts,
    filename file = Some name
    /\ endswith (lower name) ".pdf" = true
    /\ read file = Normal contents
    /\ PdfReader contents = Normal reader
    /\ map extract_text (pages reader) = map Normal (map PyStr texts)
    /\ content = content_of reader texts
    /\ extractions w' = (extractions w + length (pages reader))%nat.
Proof.
  unfold parse_pdf. destruct (filename file) as [name|]; [|discriminate].
  destruct (endswith (lower name) ".pdf") eqn:Hpdf; [|discriminate].
  cbn [negb].
  destruct (parse_body PdfReader file name w) as [[c|e] w1] eqn:Hbody;
    [|discriminate].
  intros [= <- <-].
  destruct (parse_body_Normal_inv _ _ _ _ _ _ Hbody)
    as (contents & reader & texts & Hread & Hopen & Hps & -> & Hcount).
  now exists name, contents, reader, texts.
Qed.

(** The outcome does not depend on the world the handler starts in. *)
Lemma parse_pdf_outcome_frame (w : world) :
  fst (parse_pdf PdfReader file w) = fst (parse_pdf PdfReader file []).
Proof.
  unfold parse_pdf. destruct (filename file) as [name|]; [|reflexivity].
  destruct (negb (endswith (lower name) ".pdf")); [reflexivity|].
  rewrite (framed_parse_body PdfReader file name w).
  now destruct (parse_body PdfReader file name []) as [[c|e] evs].
Qed.

End ParsePdf.

(** The three ways the handler ends for an upload with a file name: the
    400 of the file name test with the world untouched, the response of a
    valid document, or the 500 of a failure of the [try] block. *)
Lemma parse_pdf_outcomes (PdfReader : bytes -> completion Reader)
    (file : UploadFile) (name : string) (w : world) :
  filename file = Some name ->
  (endswith (lower name) ".pdf" = false
   /\ parse_pdf PdfReader file w = (HTTPException 400 "File must be a PDF", w))
  \/ (endswith (lower name) ".pdf" = true
      /\ exists contents reader texts evs,
           read file = Normal contents
           /\ PdfReader contents = Normal reader
           /\ map extract_text (pages reader) = map Normal (map PyStr texts)
           /\ parse_pdf PdfReader file w
              = (Response (content_of reader texts), w ++ evs))
  \/ (endswith (lower name) ".pdf" = true
      /\ exists e evs,
           raises PdfReader file e
           /\ parse_pdf PdfReader file w
              = (HTTPException 500 ("PDF parsing failed: " +:+ exc_str e), w ++ evs)).
Proof.
  intros Hname. destruct (endswith (lower name) ".pdf") eqn:Hpdf.
  - right.
    destruct (upload_cases PdfReader file)
      as [[e He] | (contents & reader & texts & Hread & Hopen & Hps)].
    + right. split; [reflexivity|].
      destruct (parse_pdf_raises PdfReader file name e w Hname Hpdf He) as [evs Hrun].
      now exists e, evs.
    + left. split; [reflexivity|].
      destruct (parse_pdf_ok PdfReader file name contents reader texts w
                  Hname Hpdf Hread Hopen Hps) as (evs & Hrun & _).
      now exists contents, reader, texts, evs.
  - left. split; [reflexivity|]. unfold parse_pdf. now rewrite Hname, Hpdf.
Qed.

(** Two PDF libraries that do the same on the bytes of the upload give the
    same run of the handler. *)
Lemma parse_pdf_ext (PdfReader1 PdfReader2 : bytes -> completion Reader)
    (file : UploadFile) (w : world) :
  (forall contents, read file = Normal contents ->
                    PdfReader1 contents = PdfReader2 contents) ->
  parse_pdf PdfReader1 file w = parse_pdf PdfReader2 file w.
Proof.
  intros Hsame. unfold parse_pdf.
  destruct (filename file) as [name|]; [|reflexivity].
  destruct (negb (endswith (lower name) ".pdf")); [reflexivity|].
  assert (Hbody : parse_body PdfReader1 file name w = parse_body PdfReader2 file name w);
    [|now rewrite Hbody].
  unfold parse_body. unfold bind at 1 4. unfold call at 1 3.
  destruct (read file) as [contents|e]; [|reflexivity].
  unfold bind at 1 4. unfold call. now rewrite (Hsame contents).
Qed.

(** The members of the metadata dictionary, once the three assignments
    are done. *)
Lemma build_metadata_eq (reader : Reader) :
  build_metadata reader
  = [("pages", JInt (Z.of_nat (length (pages reader))));
     ("author", document_info reader "/Author");
     ("title", document_info reader "/Title");
     ("createdDate", document_info reader "/CreationDate")].
Proof.
  unfold build_metadata, document_info, has_metadata, metadata_get.
  destruct (metadata reader) as [d|]; [|reflexivity].
  destruct (size d =? 0)%nat eqn:Hsize; cbn [negb].
  - apply Nat.eqb_eq, map_size_empty_iff in Hsize. subst d.
    now rewrite !lookup_empty.
  - generalize (d !! "/Author") (d !! "/Title") (d !! "/CreationDate").
    intros [a|] [t|] [c|]; reflexivity.
Qed.

(** * The contract of the two endpoints *)

(** ** GET /health *)

(** C6: every GET /health request, whatever requests were handled before
    it, is answered with status 200 and exactly the body
    [{"status": "healthy", "service": "pdf-parser"}]; it raises nothing and
    leaves the world as it found it. *)
Theorem health_check_fixed (PdfReader : bytes -> completion Reader)
    (earlier : list request) (w0 : world) :
  let w := serve PdfReader earlier w0 in
  let healthy := JObject [("status", JStr "healthy"); ("service", JStr "pdf-parser")] in
  health_check w = (Response healthy, w)
  /\ http_status (fst (health_check w)) = 200
  /\ http_body (fst (health_check w)) = JsonBody healthy.
Proof. repeat split. Qed.

(** ** POST /parse: the file name test *)

(** C3: an upload whose file name does not end, case-insensitively, with
    [".pdf"] is answered with status 400 and a detail message, and the world
    is left untouched: the body is not read and the PDF library is not
    called (nothing is logged either). *)
Theorem parse_pdf_rejects_other_names (PdfReader : bytes -> completion Reader)
    (file : UploadFile) (name : string) (w : world) :
  filename file = Some name ->
  endswith (lower name) ".pdf" = false ->
  parse_pdf PdfReader file w = (HTTPException 400 "File must be a PDF", w)
  /\ http_status (fst (parse_pdf PdfReader file w)) = 400
  /\ http_body (fst (parse_pdf PdfReader file w))
     = JsonBody (JObject [("detail", JStr "File must be a PDF")])
  /\ library_calls (snd (parse_pdf PdfReader file w)) = library_calls w.
Proof.
  intros Hname Hpdf. unfold parse_pdf. rewrite Hname, Hpdf. repeat split.
Qed.

Lemma parse_pdf_rejects_other_names_witness :
  parse_pdf sample_PdfReader notes_upload []
  = (HTTPException 400 "File must be a PDF", [])
  /\ http_status (fst (parse_pdf sample_PdfReader notes_upload [])) = 400
  /\ http_body (fst (parse_pdf sample_PdfReader notes_upload []))
     = JsonBody (JObject [("detail", JStr "File must be a PDF")])
  /\ library_calls (snd (parse_pdf sample_PdfReader notes_upload [])) = library_calls [].
Proof.
  apply (parse_pdf_rejects_other_names sample_PdfReader notes_upload "notes.txt" []);
    reflexivity.
Defined.



(** ** POST /parse: the response *)

(** C1: a response is only given for an upload whose file name ends,
    case-insensitively, with [".pdf"] and whose pages were all extracted to
    strings, and its [text] is those strings, one per page and in page
    order, joined with one newline between consecutive pages; a page whose
    text is empty is one of the joined strings like any other. *)
Theorem parse_pdf_text (PdfReader : bytes -> completion Reader)
    (file : UploadFile) (w w' : world) (content : json) :
  parse_pdf PdfReader file w = (Response content, w') ->
  exists name contents reader texts,
    filename file = Some name
    /\ endswith (lower name) ".pdf" = true
    /\ read file = Normal contents
    /\ PdfReader contents = Normal reader
    /\ map extract_text (pages reader) = map Normal (map PyStr texts)
    /\ length texts = length (pages reader)
    /\ member "text" content = Some (JStr (String.concat LF texts)).
Proof.
  intros Hrun.
  destruct (parse_pdf_Response_inv _ _ _ _ _ Hrun)
    as (name & contents & reader & texts & Hname & Hpdf & Hread & Hopen & Hps & -> & _).
  exists name, contents, reader, texts. repeat split; try assumption.
  apply (f_equal length) in Hps. now rewrite !length_map in Hps.
Qed.

Lemma parse_pdf_text_witness :
  exists name contents reader texts,
    filename report_upload = Some name
    /\ endswith (lower name) ".pdf" = true
    /\ read report_upload = Normal contents
    /\ sample_PdfReader contents = Normal reader
    /\ map extract_text (pages reader) = map Normal (map PyStr texts)
    /\ length texts = length (pages reader)
    /\ member "text" (content_of report ["Quarterly report"; ""; "Totals"])
       = Some (JStr (String.concat LF texts)).
Proof.
  eapply (parse_pdf_text sample_PdfReader report_upload []). reflexivity.
Defined.



(** C5: in every response the members [author], [title] and [createdDate]
    of [metadata] are present; each holds the value the document
    information has under [/Author], [/Title], [/CreationDate] when the
    reader has a dictionary with that key, and null when the key is missing
    or there is no dictionary. *)
Theorem parse_pdf_metadata_fields (PdfReader : bytes -> completion Reader)
    (file : UploadFile) (w w' : world) (content : json) :
  parse_pdf PdfReader file w = (Response content, w') ->
  exists contents reader md,
    read file = Normal contents
    /\ PdfReader contents = Normal reader
    /\ member "metadata" content = Some md
    /\ member "author" md = Some (document_info reader "/Author")
    /\ member "title" md = Some (document_info reader "/Title")
    /\ member "createdDate" md = Some (document_info reader "/CreationDate").
Proof.
  intros Hrun.
  destruct (parse_pdf_Response_inv _ _ _ _ _ Hrun)
    as (name & contents & reader & texts & _ & _ & Hread & Hopen & _ & -> & _).
  exists contents, reader, (JObject (build_metadata reader)).
  repeat split; try assumption; now rewrite build_metadata_eq.
Qed.

Lemma parse_pdf_metadata_fields_witness :
  exists contents reader md,
    read report_upload = Normal contents
    /\ sample_PdfReader contents = Normal reader
    /\ member "metadata" (content_of report ["Quarterly report"; ""; "Totals"])
       = Some md
    /\ member "author" md = Some (document_info reader "/Author")
    /\ member "title" md = Some (document_info reader "/Title")
    /\ member "createdDate" md = Some (document_info reader "/CreationDate").
Proof.
  eapply (parse_pdf_metadata_fields sample_PdfReader report_upload []). reflexivity.
Defined.



(** ** POST /parse: failures *)

(** C4: under a PDF name, when a step of the [try] block raises (the read
    of the body, the construction of the reader, the extraction of a page,
    the join of the page texts), the answer is status 500 with a detail
    that is ["PDF parsing failed: "] followed by the description of that
    exception; the body holds the detail and nothing else, so no [text] and
    no [metadata], and no response is returned. *)
Theorem parse_pdf_failure (PdfReader : bytes -> completion Reader)
    (file : UploadFile) (name : string) (e : exception) (w : world) :
  filename file = Some name ->
  endswith (lower name) ".pdf" = true ->
  raises PdfReader file e ->
  let detail := "PDF parsing failed: " +:+ exc_str e in
  fst (parse_pdf PdfReader file w) = HTTPException 500 detail
  /\ http_status (fst (parse_pdf PdfReader file w)) = 500
  /\ http_body (fst (parse_pdf PdfReader file w))
     = JsonBody (JObject [("detail", JStr detail)])
  /\ (forall content, fst (parse_pdf PdfReader file w) <> Response content).
Proof.
  intros Hname Hpdf He detail.
  destruct (parse_pdf_raises PdfReader file name e w Hname Hpdf He) as [evs ->].
  repeat split. discriminate.
Qed.

Lemma parse_pdf_failure_witness :
  let detail := "PDF parsing failed: EOF marker not found" in
  fst (parse_pdf sample_PdfReader broken_upload []) = HTTPException 500 detail
  /\ http_status (fst (parse_pdf sample_PdfReader broken_upload [])) = 500
  /\ http_body (fst (parse_pdf sample_PdfReader broken_upload []))
     = JsonBody (JObject [("detail", JStr detail)])
  /\ (forall content,
        fst (parse_pdf sample_PdfReader broken_upload []) <> Response content).
Proof.
  apply (parse_pdf_failure sample_PdfReader broken_upload "broken.pdf"
           (mkException "PdfReadError" "EOF marker not found") []);
    [reflexivity | reflexivity |].
  apply raises_open with (contents := [x6f; x6f; x70; x73]); reflexivity.
Defined.

(** C9: there are uploads under a PDF name with a well-formed document one
    of whose pages is extracted to [None]; for each of them (the pages up to
    the first [None] being strings) the join raises a [TypeError] on that
    page, and the answer is the 500 with that description, not a response
    that takes the page as empty. *)
Theorem none_page_text_gives_500 (PdfReader : bytes -> completion Reader)
    (file : UploadFile) (name : string) (contents : bytes) (reader : Reader)
    (texts : list string) (rest : list pyval) (w : world) :
  filename file = Some name ->
  endswith (lower name) ".pdf" = true ->
  read file = Normal contents ->
  PdfReader contents = Normal reader ->
  map extract_text (pages reader) = map Normal (map PyStr texts ++ PyNone :: rest) ->
  fst (parse_pdf PdfReader file w)
  = HTTPException 500
      ("PDF parsing failed: sequence item " +:+ pretty (length texts) +:+
       ": expected str instance, NoneType found")
  /\ (forall content, fst (parse_pdf PdfReader file w) <> Response content).
Proof.
  intros Hname Hpdf Hread Hopen Hps.
  assert (He : raises PdfReader file (join_type_error (length texts)))
    by (eapply raises_join; eauto using str_join_None).
  destruct (parse_pdf_raises PdfReader file name _ w Hname Hpdf He) as [evs ->].
  split; [reflexivity | discriminate].
Qed.

Lemma none_page_text_gives_500_witness :
  fst (parse_pdf sample_PdfReader scan_upload [])
  = HTTPException 500
      ("PDF parsing failed: sequence item " +:+ pretty (length ["Cover"]) +:+
       ": expected str instance, NoneType found")
  /\ (forall content,
        fst (parse_pdf sample_PdfReader scan_upload []) <> Response content).
Proof.
  apply (none_page_text_gives_500 sample_PdfReader scan_upload "scan.pdf"
           [x25; x50; x44; x46; x00] scan ["Cover"] [] []);
    reflexivity.
Defined.

(** ** POST /parse: independence of the requests *)

(** C8: the answer to a POST /parse request is a function of the upload
    and of what the PDF library does on its bytes.  Two requests with the
    same upload, in any two runs of the service (whatever was handled
    before, with libraries that agree on the bytes of the upload), get the
    same outcome, hence the same status and the same body. *)
Theorem parse_pdf_deterministic (PdfReader1 PdfReader2 : bytes -> completion Reader)
    (file : UploadFile) (earlier1 earlier2 : list request) (w1 w2 : world) :
  (forall contents, read file = Normal contents ->
                    PdfReader1 contents = PdfReader2 contents) ->
  let o1 := fst (handle PdfReader1 (PostParse file) (serve PdfReader1 earlier1 w1)) in
  let o2 := fst (handle PdfReader2 (PostParse file) (serve PdfReader2 earlier2 w2)) in
  o1 = o2 /\ http_status o1 = http_status o2 /\ http_body o1 = http_body o2.
Proof.
  intros Hsame o1 o2.
  assert (Heq : o1 = o2); [|now rewrite Heq].
  unfold o1, o2, handle.
  rewrite (parse_pdf_outcome_frame PdfReader1 file (serve PdfReader1 earlier1 w1)).
  rewrite (parse_pdf_outcome_frame PdfReader2 file (serve PdfReader2 earlier2 w2)).
  now rewrite (parse_pdf_ext PdfReader1 PdfReader2 file [] Hsame).
Qed.

Lemma parse_pdf_deterministic_witness :
  let o1 := fst (handle sample_PdfReader (PostParse report_upload)
                   (serve sample_PdfReader
                      [GetHealth; PostParse notes_upload; PostParse scan_upload] [])) in
  let o2 := fst (handle other_PdfReader (PostParse report_upload)
                   (serve other_PdfReader [PostParse broken_upload] [FileRead])) in
  o1 = o2 /\ http_status o1 = http_status o2 /\ http_body o1 = http_body o2.
Proof.
  apply (parse_pdf_deterministic sample_PdfReader other_PdfReader report_upload
           [GetHealth; PostParse notes_upload; PostParse scan_upload]
           [PostParse broken_upload] [] [FileRead]).
  intros contents [= <-]. reflexivity.
Defined.


(** * Further properties of the handlers *)

(** ** The file name test *)

Lemma lower_char_dot (c : ascii) : lower_char c = "."%char -> c = "."%char.
Proof.
  destruct c as [[] [] [] [] [] [] [] []]; vm_compute; intros H;
    first [discriminate H | reflexivity].
Qed.

Lemma lower_char_p (c : ascii) :
  lower_char c = "p"%char -> c = "p"%char \/ c = "P"%char.
Proof.
  destruct c as [[] [] [] [] [] [] [] []]; vm_compute; intros H;
    first [discriminate H | now left | now right].
Qed.

Lemma lower_char_d (c : ascii) :
  lower_char c = "d"%char -> c = "d"%char \/ c = "D"%char.
Proof.
  destruct c as [[] [] [] [] [] [] [] []]; vm_compute; intros H;
    first [discriminate H | now left | now right].
Qed.

Lemma lower_char_f (c : ascii) :
  lower_char c = "f"%char -> c = "f"%char \/ c = "F"%char.
Proof.
  destruct c as [[] [] [] [] [] [] [] []]; vm_compute; intros H;
    first [discriminate H | now left | now right].
Qed.

(** X1: the file name test of [parse_pdf] accepts exactly the names that
    end with a dot followed by the letters p, d, f, each in either case;
    every other name (shorter than four characters, another extension,
    anything after the extension) is refused. *)
Theorem accepted_names (name : string) :
  endswith (lower name) ".pdf" = true <->
  exists stem p d f,
    name = stem +:+ String "."%char (String p (String d (String f EmptyString)))
    /\ (p = "p"%char \/ p = "P"%char)
    /\ (d = "d"%char \/ d = "D"%char)
    /\ (f = "f"%char \/ f = "F"%char).
Proof.
  rewrite pdf_suffix_spec. split.
  - intros (stem & ext & -> & Hext).
    destruct ext as [|c0 [|c1 [|c2 [|c3 [|c4 ext]]]]]; try discriminate Hext.
    cbn [lower] in Hext. injection Hext as H0 H1 H2 H3.
    apply lower_char_dot in H0 as ->.
    exists stem, c1, c2, c3.
    auto using lower_char_p, lower_char_d, lower_char_f.
  - intros (stem & p & d & f & -> & Hp & Hd & Hf).
    exists stem. eexists. split; [reflexivity|].
    destruct Hp as [-> | ->], Hd as [-> | ->], Hf as [-> | ->]; reflexivity.
Qed.

(** ** What a request writes to the world *)

Lemma error_lines_app (w1 w2 : world) :
  error_lines (w1 ++ w2) = (error_lines w1 + error_lines w2)%nat.
Proof. unfold error_lines. now rewrite List.filter_app, length_app. Qed.

Lemma quiet_ret {A} (a : A) : quiet (ret a).
Proof. intros w. reflexivity. Qed.

Lemma quiet_lift {A} (c : completion A) : quiet (lift c).
Proof. intros w. reflexivity. Qed.

Lemma quiet_call {A} (ev : event) (c : completion A) :
  is_error ev = false -> quiet (call ev c).
Proof.
  intros Hev w. unfold call. cbn [snd]. rewrite error_lines_app.
  unfold error_lines at 2. cbn [List.filter]. rewrite Hev. cbn [length]. lia.
Qed.

Lemma quiet_logger_info (msg : string) : quiet (logger_info msg).
Proof.
  intros w. unfold logger_info, emit. cbn [snd]. rewrite error_lines_app.
  unfold error_lines at 2. cbn [List.filter is_error length]. lia.
Qed.

Lemma quiet_bind {A B} (m : M A) (k : A -> M B) :
  quiet m -> (forall a, quiet (k a)) -> quiet (bind m k).
Proof.
  intros Hm Hk w. unfold bind. specialize (Hm w).
  destruct (m w) as [[a|e] w1]; cbn [snd] in *; [|exact Hm].
  now rewrite Hk.
Qed.

#[local] Hint Resolve quiet_ret quiet_lift quiet_logger_info quiet_bind : framed.

Lemma quiet_extract_pages (ps : list PageObject) :
  forall n text_parts, quiet (extract_pages ps n text_parts).
Proof.
  induction ps as [|page rest IH]; intros n text_parts; cbn [extract_pages].
  - auto with framed.
  - apply quiet_bind; [now apply quiet_call|]. intros page_text.
    apply quiet_bind; [|auto].
    destruct (n =? 0)%nat; [|auto with framed].
    unfold log_first_page. auto with framed.
Qed.

Lemma quiet_parse_body (PdfReader : bytes -> completion Reader)
    (file : UploadFile) (name : string) :
  quiet (parse_body PdfReader file name).
Proof.
  unfold parse_body.
  apply quiet_bind; [now apply quiet_call | intros contents].
  apply quiet_bind; [now apply quiet_call | intros reader].
  apply quiet_bind; [apply quiet_extract_pages | intros text_parts].
  auto 6 with framed.
Qed.

(** The log lines written after the first page are not library calls. *)
Lemma first_page_logs (n : nat) (page_text : pyval) (w : world) :
  exists logs,
    (if (n =? 0)%nat then log_first_page page_text else ret tt) w
    = (Normal tt, w ++ logs)
    /\ library_calls logs = [].
Proof.
  destruct (n =? 0)%nat.
  - eexists [_; _]. split.
    + unfold log_first_page, logger_info, bind, emit.
      now rewrite <- app_assoc.
    + reflexivity.
  - exists []. split; [|reflexivity]. unfold ret. now rewrite app_nil_r.
Qed.

(** The library calls of the loop: [extract_text] on the pages it gets to,
    numbered from the page number it starts with, in order. *)
Lemma library_calls_extract_pages (ps : list PageObject) :
  forall n text_parts,
    library_calls (snd (extract_pages ps n text_parts []))
    = map ExtractText (seq n (visited ps)).
Proof.
  induction ps as [|page rest IH]; intros n text_parts;
    cbn [extract_pages visited]; [reflexivity|].
  unfold bind at 1. unfold call.
  destruct (extract_text page) as [v|e]; [|reflexivity].
  unfold bind.
  destruct (first_page_logs n v ([] ++ [ExtractText n])) as (logs & -> & Hlogs).
  rewrite (framed_extract_pages rest (S n) (text_parts ++ [v])). cbn [snd].
  rewrite !library_calls_app, Hlogs, IH. reflexivity.
Qed.

Lemma visited_all (ps : list PageObject) (values : list pyval) :
  map extract_text ps = map Normal values -> visited ps = length ps.
Proof.
  revert values. induction ps as [|p ps IH]; intros [|v values] Hps;
    try discriminate; [reflexivity|].
  injection Hps as Hp Hps. cbn [visited length]. rewrite Hp. f_equal. eauto.
Qed.

Lemma visited_stop (before : list PageObject) (values : list pyval)
    (page : PageObject) (after : list PageObject) (e : exception) :
  map extract_text before = map Normal values ->
  extract_text page = Raised e ->
  visited (before ++ page :: after) = S (length before).
Proof.
  revert values. induction before as [|p before IH]; intros [|v values] Hps Hpage;
    try discriminate.
  - cbn [app visited length]. now rewrite Hpage.
  - injection Hps as Hp Hps. cbn [app visited length]. rewrite Hp. f_equal. eauto.
Qed.

(** The library calls of the [try] block: the read; when it returns, the
    construction of the reader on the bytes read; when that returns, the
    extraction of the pages the loop gets to. *)
Lemma library_calls_parse_body (PdfReader : bytes -> completion Reader)
    (file : UploadFile) (name : string) :
  library_calls (snd (parse_body PdfReader file name []))
  = FileRead ::
    match read file with
    | Raised _ => []
    | Normal contents =>
        OpenReader contents ::
        match PdfReader contents with
        | Raised _ => []
        | Normal reader => map ExtractText (seq 0 (visited (pages reader)))
        end
    end.
Proof.
  unfold parse_body. unfold bind at 1. unfold call at 1.
  destruct (read file) as [contents|e]; [|reflexivity].
  unfold bind at 1. unfold call at 1.
  destruct (PdfReader contents) as [reader|e]; [|reflexivity].
  unfold bind at 1.
  rewrite (framed_extract_pages (pages reader) 0%nat []).
  pose proof (library_calls_extract_pages (pages reader) 0%nat []) as Hloop.
  destruct (extract_pages (pages reader) 0 [] []) as [[text_parts|e] evs];
    cbn [fst snd] in *.
  - unfold bind at 1. unfold lift.
    destruct (str_join LF text_parts) as [full_text|e]; cbn [snd].
    + unfold bind, logger_info, emit, ret. cbn [snd].
      rewrite !library_calls_app, Hloop. cbn. now rewrite !app_nil_r.
    + rewrite !library_calls_app, Hloop. reflexivity.
  - rewrite !library_calls_app, Hloop. reflexivity.
Qed.

(** The handler only appends to the world, and what it appends does not
    depend on the world it starts in. *)
Lemma parse_pdf_frame (PdfReader : bytes -> completion Reader)
    (file : UploadFile) (w : world) :
  parse_pdf PdfReader file w
  = (fst (parse_pdf PdfReader file []), w ++ snd (parse_pdf PdfReader file [])).
Proof.
  unfold parse_pdf. destruct (filename file) as [name|];
    [|cbn [fst snd]; now rewrite app_nil_r].
  destruct (negb (endswith (lower name) ".pdf"));
    [cbn [fst snd]; now rewrite app_nil_r|].
  rewrite (framed_parse_body PdfReader file name w).
  destruct (parse_body PdfReader file name []) as [[c|e] evs]; cbn [fst snd].
  - reflexivity.
  - now rewrite <- app_assoc.
Qed.

Lemma handle_frame (PdfReader : bytes -> completion Reader) (r : request)
    (w : world) :
  handle PdfReader r w
  = (fst (handle PdfReader r []), w ++ snd (handle PdfReader r [])).
Proof.
  destruct r as [|file]; cbn [handle].
  - unfold health_check. cbn [fst snd]. now rewrite app_nil_r.
  - apply parse_pdf_frame.
Qed.

(** The library calls of a request under a PDF name are those of its
    [try] block. *)
Lemma library_calls_parse_pdf (PdfReader : bytes -> completion Reader)
    (file : UploadFile) (name : string) :
  filename file = Some name ->
  endswith (lower name) ".pdf" = true ->
  library_calls (snd (parse_pdf PdfReader file []))
  = library_calls (snd (parse_body PdfReader file name [])).
Proof.
  intros Hname Hpdf. unfold parse_pdf. rewrite Hname, Hpdf. cbn [negb].
  destruct (parse_body PdfReader file name []) as [[c|e] evs]; cbn [snd];
    [reflexivity|].
  rewrite library_calls_app. cbn. now rewrite app_nil_r.
Qed.

(** ** The answers of the handler *)

(** X2: an upload that carries a file name is always answered by the
    handler itself: the outcome is a response or an [HTTPException] with
    status 400 or 500, never an exception that escapes [parse_pdf]. *)
Theorem parse_pdf_always_answers (PdfReader : bytes -> completion Reader)
    (file : UploadFile) (name : string) (w : world) :
  filename file = Some name ->
  (forall e, fst (parse_pdf PdfReader file w) <> Uncaught e)
  /\ (http_status (fst (parse_pdf PdfReader file w)) = 200
      \/ http_status (fst (parse_pdf PdfReader file w)) = 400
      \/ http_status (fst (parse_pdf PdfReader file w)) = 500).
Proof.
  intros Hname.
  destruct (parse_pdf_outcomes PdfReader file name w Hname)
    as [[_ ->] | [(_ & c & r & t & evs & _ & _ & _ & ->) | (_ & e & evs & _ & ->)]];
    cbn [fst http_status]; (split; [discriminate | auto]).
Qed.

Lemma parse_pdf_always_answers_witness :
  (forall e, fst (parse_pdf sample_PdfReader broken_upload []) <> Uncaught e)
  /\ (http_status (fst (parse_pdf sample_PdfReader broken_upload [])) = 200
      \/ http_status (fst (parse_pdf sample_PdfReader broken_upload [])) = 400
      \/ http_status (fst (parse_pdf sample_PdfReader broken_upload [])) = 500).
Proof.
  apply (parse_pdf_always_answers sample_PdfReader broken_upload "broken.pdf" []).
  reflexivity.
Defined.



(** ** The calls a request makes *)

(** X4: under a PDF name, when the body is read, the reader is built and
    every page returns from [extract_text], the request reads the body once,
    builds one reader on exactly the bytes read, and then calls
    [extract_text] once per page, in page order; these are all its calls. *)
Theorem calls_when_pages_return (PdfReader : bytes -> completion Reader)
    (file : UploadFile) (name : string) (contents : bytes) (reader : Reader)
    (values : list pyval) (w : world) :
  filename file = Some name ->
  endswith (lower name) ".pdf" = true ->
  read file = Normal contents ->
  PdfReader contents = Normal reader ->
  map extract_text (pages reader) = map Normal values ->
  exists evs,
    snd (parse_pdf PdfReader file w) = w ++ evs
    /\ library_calls evs
       = FileRead :: OpenReader contents
         :: map ExtractText (seq 0 (length (pages reader))).
Proof.
  intros Hname Hpdf Hread Hopen Hps.
  exists (snd (parse_pdf PdfReader file [])). split.
  - now rewrite (parse_pdf_frame PdfReader file w).
  - rewrite (library_calls_parse_pdf PdfReader file name Hname Hpdf).
    rewrite library_calls_parse_body, Hread, Hopen.
    now rewrite (visited_all (pages reader) values Hps).
Qed.

Lemma calls_when_pages_return_witness :
  exists evs,
    snd (parse_pdf sample_PdfReader scan_upload [Log INFO "started"])
    = [Log INFO "started"] ++ evs
    /\ library_calls evs
       = FileRead :: OpenReader [x25; x50; x44; x46; x00]
         :: map ExtractText (seq 0 (length (pages scan))).
Proof.
  apply (calls_when_pages_return sample_PdfReader scan_upload "scan.pdf"
           [x25; x50; x44; x46; x00] scan [PyStr "Cover"; PyNone]
           [Log INFO "started"]);
    reflexivity.
Defined.

(** X5: under a PDF name, when the extraction of a page raises, the pages
    before it having returned, the loop stops there: the pages up to that
    one are extracted, in order, the pages after it are never passed to
    [extract_text], and the answer is the 500 with the description of that
    exception. *)
Theorem extraction_stops_at_failure (PdfReader : bytes -> completion Reader)
    (file : UploadFile) (name : string) (contents : bytes) (reader : Reader)
    (before : list PageObject) (values : list pyval) (page : PageObject)
    (after : list PageObject) (e : exception) (w : world) :
  filename file = Some name ->
  endswith (lower name) ".pdf" = true ->
  read file = Normal contents ->
  PdfReader contents = Normal reader ->
  pages reader = before ++ page :: after ->
  map extract_text before = map Normal values ->
  extract_text page = Raised e ->
  exists evs,
    parse_pdf PdfReader file w
    = (HTTPException 500 ("PDF parsing failed: " +:+ exc_str e), w ++ evs)
    /\ library_calls evs
       = FileRead :: OpenReader contents
         :: map ExtractText (seq 0 (S (length before))).
Proof.
  intros Hname Hpdf Hread Hopen Hps Hbefore Hpage.
  assert (He : raises PdfReader file e) by (eapply raises_extract; eauto).
  destruct (parse_pdf_raises PdfReader file name e [] Hname Hpdf He) as [evs0 Hrun].
  exists (snd (parse_pdf PdfReader file [])). split.
  - rewrite (parse_pdf_frame PdfReader file w). now rewrite Hrun.
  - rewrite (library_calls_parse_pdf PdfReader file name Hname Hpdf).
    rewrite library_calls_parse_body, Hread, Hopen, Hps.
    now rewrite (visited_stop before values page after e Hbefore Hpage).
Qed.

Lemma extraction_stops_at_failure_witness :
  exists evs,
    parse_pdf torn_PdfReader torn_upload []
    = (HTTPException 500 ("PDF parsing failed: " +:+ "Invalid content stream"),
       [] ++ evs)
    /\ library_calls evs
       = FileRead :: OpenReader [x25; x50; x44; x46; x01]
         :: map ExtractText (seq 0 (S (length [page_of "Intro"]))).
Proof.
  apply (extraction_stops_at_failure torn_PdfReader torn_upload "torn.pdf"
           [x25; x50; x44; x46; x01] torn [page_of "Intro"] [PyStr "Intro"]
           (mkPage (Raised (mkException "PdfReadError" "Invalid content stream")))
           [page_of "Appendix"]
           (mkException "PdfReadError" "Invalid content stream") []);
    reflexivity.
Defined.

(** ** The log *)

Lemma serve_cons (PdfReader : bytes -> completion Reader) (r : request)
    (rs : list request) (w : world) :
  serve PdfReader (r :: rs) w = serve PdfReader rs (snd (handle PdfReader r w)).
Proof. reflexivity. Qed.

(** A request adds one [ERROR] line when it is answered with the 500 of the
    [except] clause, and none otherwise. *)
Lemma handle_error_lines (PdfReader : bytes -> completion Reader) (r : request)
    (w : world) :
  error_lines (snd (handle PdfReader r w))
  = (error_lines w + if is_failure (fst (handle PdfReader r w)) then 1 else 0)%nat.
Proof.
  assert (Hsame : forall (o : outcome) (w0 : world),
             is_failure o = false ->
             error_lines (snd (o, w0))
             = (error_lines w0 + if is_failure (fst (o, w0)) then 1 else 0)%nat).
  { intros o w0 Ho. cbn [fst snd]. rewrite Ho. lia. }
  destruct r as [|file]; cbn [handle]; [now apply Hsame|].
  unfold parse_pdf. destruct (filename file) as [name|]; [|now apply Hsame].
  destruct (negb (endswith (lower name) ".pdf")); [now apply Hsame|].
  pose proof (quiet_parse_body PdfReader file name w) as Hquiet.
  destruct (parse_body PdfReader file name w) as [[c|e] w1]; cbn [fst snd] in *.
  - rewrite Hquiet. cbn [is_failure]. lia.
  - rewrite error_lines_app, Hquiet. reflexivity.
Qed.

(** X6: over any sequence of requests, the number of [ERROR] lines added to
    the log is the number of requests answered with the 500 raised by the
    [except] clause: each failure is logged exactly once, and responses,
    400s, health checks and requests without a file name log no error. *)
Theorem error_lines_count_failures (PdfReader : bytes -> completion Reader)
    (rs : list request) (w : world) :
  error_lines (serve PdfReader rs w)
  = (error_lines w + length (List.filter is_failure (outcomes PdfReader rs w)))%nat.
Proof.
  revert w. induction rs as [|r rs IH]; intros w.
  - cbn [serve fold_left outcomes List.filter length]. lia.
  - rewrite serve_cons, IH, handle_error_lines. cbn [outcomes List.filter].
    destruct (is_failure (fst (handle PdfReader r w))); cbn [length]; lia.
Qed.

(** X7: requests do not interact.  Over any sequence of requests, each
    request gets the outcome it gets when handled alone in an empty world,
    and the world after the sequence is the world before it followed by
    what each request writes when handled alone, in order; no request
    removes or changes what is already there. *)
Theorem requests_do_not_interact (PdfReader : bytes -> completion Reader)
    (rs : list request) (w : world) :
  outcomes PdfReader rs w = map (fun r => fst (handle PdfReader r [])) rs
  /\ serve PdfReader rs w
     = w ++ concat (map (fun r => snd (handle PdfReader r [])) rs).
Proof.
  revert w. induction rs as [|r rs IH]; intros w.
  - cbn. now rewrite app_nil_r.
  - rewrite serve_cons. cbn [outcomes map concat].
    destruct (IH (snd (handle PdfReader r w))) as [-> ->].
    rewrite (handle_frame PdfReader r w). cbn [fst snd].
    now rewrite app_assoc.
Qed.

(** X8: a failure is logged with its cause.  Under a PDF name, when a step
    of the [try] block raises, the last thing the request writes is one
    [ERROR] line that names the file and carries the description sent to
    the client in the 500; the request writes no other [ERROR] line. *)
Theorem failure_is_logged (PdfReader : bytes -> completion Reader)
    (file : UploadFile) (name : string) (e : exception) (w : world) :
  filename file = Some name ->
  endswith (lower name) ".pdf" = true ->
  raises PdfReader file e ->
  exists evs,
    parse_pdf PdfReader file w
    = (HTTPException 500 ("PDF parsing failed: " +:+ exc_str e),
       (w ++ evs) ++ [Log ERROR ("Error parsing PDF " +:+ name +:+ ": " +:+ exc_str e)])
    /\ error_lines evs = 0%nat.
Proof.
  intros Hname Hpdf He.
  destruct (parse_body_raises PdfReader file name e w He) as [evs Hbody].
  exists evs. split.
  - unfold parse_pdf. now rewrite Hname, Hpdf, Hbody.
  - pose proof (quiet_parse_body PdfReader file name w) as Hquiet.
    rewrite Hbody in Hquiet. cbn [snd] in Hquiet.
    rewrite error_lines_app in Hquiet. lia.
Qed.

Lemma failure_is_logged_witness :
  exists evs,
    parse_pdf sample_PdfReader scan_upload []
    = (HTTPException 500
         ("PDF parsing failed: " +:+ exc_str (join_type_error 1)),
       ([] ++ evs)
       ++ [Log ERROR ("Error parsing PDF " +:+ "scan.pdf" +:+ ": "
                      +:+ exc_str (join_type_error 1))])
    /\ error_lines evs = 0%nat.
Proof.
  apply (failure_is_logged sample_PdfReader scan_upload "scan.pdf"
           (join_type_error 1) []); [reflexivity | reflexivity |].
  apply raises_join
    with (contents := [x25; x50; x44; x46; x00]) (reader := scan)
         (values := [PyStr "Cover"; PyNone]);
    reflexivity.
Defined.



(** ** The text and the metadata of the response *)



Lemma length_concat_LF (ss : list string) :
  String.length (String.concat LF ss)
  = (sum_list (map String.length ss) + (length ss - 1))%nat.
Proof.
  induction ss as [|s ss IH]; [reflexivity|].
  destruct ss as [|s' ss]; [cbn; lia|].
  change (String.concat LF (s :: s' :: ss))
    with (s +:+ LF +:+ String.concat LF (s' :: ss)).
  rewrite !length_append, IH. cbn. lia.
Qed.

(** X11: the length of the [text] of a response is the sum of the lengths
    of the page texts plus one separator per page boundary: the join adds
    nothing before the first page or after the last, and nothing for a
    document of no or one page. *)
Theorem text_length (PdfReader : bytes -> completion Reader)
    (file : UploadFile) (w w' : world) (content : json) :
  parse_pdf PdfReader file w = (Response content, w') ->
  exists contents reader texts text,
    read file = Normal contents
    /\ PdfReader contents = Normal reader
    /\ map extract_text (pages reader) = map Normal (map PyStr texts)
    /\ member "text" content = Some (JStr text)
    /\ String.length text
       = (sum_list (map String.length texts) + (length (pages reader) - 1))%nat.
Proof.
  intros Hrun.
  destruct (parse_pdf_Response_inv _ _ _ _ _ Hrun)
    as (name & contents & reader & texts & _ & _ & Hread & Hopen & Hps & -> & _).
  exists contents, reader, texts, (String.concat LF texts).
  repeat split; try assumption.
  rewrite length_concat_LF.
  apply (f_equal length) in Hps. rewrite !length_map in Hps. now rewrite Hps.
Qed.

Lemma text_length_witness :
  exists contents reader texts text,
    read report_upload = Normal contents
    /\ sample_PdfReader contents = Normal reader
    /\ map extract_text (pages reader) = map Normal (map PyStr texts)
    /\ member "text" (content_of report ["Quarterly report"; ""; "Totals"])
       = Some (JStr text)
    /\ String.length text
       = (sum_list (map String.length texts) + (length (pages reader) - 1))%nat.
Proof.
  eapply (text_length sample_PdfReader report_upload []). reflexivity.
Defined.



(** X13: the answer depends on the document information only through the
    three keys [/Author], [/Title] and [/CreationDate].  Two libraries that
    build, from the bytes of the upload, readers with the same pages and the
    same value-or-nothing under each of the three keys give the same
    outcome: any other entry of the dictionary is never shown, an empty
    dictionary counts as no dictionary, and a key that holds [None] counts
    as a missing key. *)
Theorem only_three_keys_matter (PdfReader1 PdfReader2 : bytes -> completion Reader)
    (file : UploadFile) (contents : bytes) (reader1 reader2 : Reader)
    (w1 w2 : world) :
  read file = Normal contents ->
  PdfReader1 contents = Normal reader1 ->
  PdfReader2 contents = Normal reader2 ->
  pages reader1 = pages reader2 ->
  document_info reader1 "/Author" = document_info reader2 "/Author" ->
  document_info reader1 "/Title" = document_info reader2 "/Title" ->
  document_info reader1 "/CreationDate" = document_info reader2 "/CreationDate" ->
  fst (parse_pdf PdfReader1 file w1) = fst (parse_pdf PdfReader2 file w2).
Proof.
  intros Hread Hopen1 Hopen2 Hpages Hauthor Htitle Hdate.
  destruct (filename file) as [name|] eqn:Hname;
    [|unfold parse_pdf; now rewrite Hname].
  destruct (endswith (lower name) ".pdf") eqn:Hpdf;
    [|unfold parse_pdf; now rewrite Hname, Hpdf].
  destruct (upload_cases PdfReader1 file)
    as [[e He] | (contents' & reader & texts & Hread' & Hopen' & Hps)].
  - assert (He2 : raises PdfReader2 file e).
    { destruct He as [e Hr
                     |contents' e Hr Ho
                     |contents' reader before values page after e Hr Ho Hps Hb Hp
                     |contents' reader values e Hr Ho Hps Hj];
        try congruence.
      - assert (contents' = contents) as -> by congruence.
        assert (reader = reader1) as -> by congruence.
        apply raises_extract with contents reader2 before values page after;
          congruence.
      - assert (contents' = contents) as -> by congruence.
        assert (reader = reader1) as -> by congruence.
        apply raises_join with contents reader2 values; congruence. }
    destruct (parse_pdf_raises PdfReader1 file name e w1 Hname Hpdf He) as [evs1 ->].
    destruct (parse_pdf_raises PdfReader2 file name e w2 Hname Hpdf He2) as [evs2 ->].
    reflexivity.
  - assert (contents' = contents) as -> by congruence.
    assert (reader = reader1) as -> by congruence.
    destruct (parse_pdf_ok PdfReader1 file name contents reader1 texts w1
                Hname Hpdf Hread Hopen1 Hps) as (evs1 & -> & _).
    rewrite Hpages in Hps.
    destruct (parse_pdf_ok PdfReader2 file name contents reader2 texts w2
                Hname Hpdf Hread Hopen2 Hps) as (evs2 & -> & _).
    cbn [fst]. unfold content_of.
    now rewrite !build_metadata_eq, Hpages, Hauthor, Htitle, Hdate.
Qed.

Lemma only_three_keys_matter_witness :
  fst (parse_pdf sample_PdfReader report_upload [])
  = fst (parse_pdf producer_PdfReader report_upload [FileRead]).
Proof.
  apply (only_three_keys_matter sample_PdfReader producer_PdfReader report_upload
           [x25; x50; x44; x46] report report_with_producer [] [FileRead]);
    reflexivity.
Defined.

(** ** The first page in the log *)

(** The first [n] characters of a string: a prefix of it, [n] long unless
    the string is shorter. *)
Lemma substring_prefix (s : string) :
  forall n : nat,
    exists rest,
      s = String.substring 0 n s +:+ rest
      /\ String.length (String.substring 0 n s) = Nat.min n (String.length s).
Proof.
  induction s as [|c s IH]; intros [|n].
  - now exists "".
  - now exists "".
  - now exists (String c s).
  - destruct (IH n) as (rest & Hrest & Hlen). exists rest.
    cbn [String.substring String.append String.length]. split.
    + now rewrite <- Hrest.
    + rewrite Hlen. reflexivity.
Qed.

(** X14: of the text of the first page, the log receives its length and
    at most its first 100 characters.  For a non-empty first page text the
    two lines written show the length of the text and a prefix of the text
    that is 100 characters long, or the whole text when it is shorter. *)
Theorem first_page_log_is_a_prefix (s : string) (w : world) :
  s <> "" ->
  exists shown rest,
    s = shown +:+ rest
    /\ String.length shown = Nat.min 100 (String.length s)
    /\ log_first_page (PyStr s) w
       = (Normal tt,
          w ++ [Log INFO ("First page text length: " +:+ pretty (String.length s));
                Log INFO ("First 100 chars: " +:+ shown)]).
Proof.
  intros Hs. destruct (substring_prefix s 100) as (rest & Hrest & Hlen).
  exists (String.substring 0 100 s), rest. repeat split; try assumption.
  unfold log_first_page, logger_info, bind, emit, truthy.
  apply String.eqb_neq in Hs. rewrite Hs. cbn [negb].
  now rewrite <- app_assoc.
Qed.

Lemma first_page_log_is_a_prefix_witness :
  exists shown rest,
    "Quarterly report" = shown +:+ rest
    /\ String.length shown = Nat.min 100 (String.length "Quarterly report")
    /\ log_first_page (PyStr "Quarterly report") []
       = (Normal tt,
          [] ++ [Log INFO ("First page text length: "
                          +:+ pretty (String.length "Quarterly report"));
                Log INFO ("First 100 chars: " +:+ shown)]).
Proof.
  apply (first_page_log_is_a_prefix "Quarterly report" []). discriminate.
Defined.

(** * The test script against the service *)

Section ScriptAgainstService.

Import TestScript.

Variable PdfReader : bytes -> completion Reader.
Variable encode : json -> string.
Variable requests_get : string -> completion HttpResponse.
Variable requests_post : string -> string -> bytes -> string -> completion HttpResponse.
Variable open_rb : string -> completion bytes.
Variable dict_repr : list (string * json) -> string.

Lemma io_bind_fst {A B} (m : IO A) (k : A -> IO B) (c : console) :
  fst (io_bind m k c)
  = match fst (m c) with
    | Normal a => fst (k a (snd (m c)))
    | Raised e => Raised e
    end.
Proof. unfold io_bind. now destruct (m c) as [[a|e] c']. Qed.

(** The members the script reads are there in every content the handler
    returns. *)
Lemma script_reads_content (reader : Reader) (texts : list string) :
  getitem (content_of reader texts) "metadata" = Normal (JObject (build_metadata reader))
  /\ getitem (JObject (build_metadata reader)) "pages"
     = Normal (JInt (Z.of_nat (length (pages reader))))
  /\ getitem (content_of reader texts) "text" = Normal (JStr (String.concat LF texts)).
Proof. unfold content_of. rewrite build_metadata_eq. repeat split; reflexivity. Qed.

(** The health test passes on the answer of [health_check]. *)
Lemma test_health_passes (w : world) (c : console) :
  requests_get "http://localhost:8001/health"
  = Normal (respond encode (fst (health_check w))) ->
  fst (test_health requests_get dict_repr c) = Normal true.
Proof. intros Hget. unfold test_health, io_bind, io_call. now rewrite Hget. Qed.

(** What the upload test returns, and the status it never sees. *)
Lemma script_verdict (pdf_path : string) (data : bytes) (w : world) (c : console) :
  open_rb pdf_path = Normal data ->
  requests_post "http://localhost:8001/parse" "test.pdf" data "application/pdf"
  = Normal (respond encode (fst (parse_pdf PdfReader (posted data) w))) ->
  http_status (fst (parse_pdf PdfReader (posted data) w)) <> 400
  /\ fst (test_parse_pdf requests_post open_rb dict_repr pdf_path c)
     = Normal (is_response (fst (parse_pdf PdfReader (posted data) w))).
Proof.
  intros Hopen Hpost.
  unfold test_parse_pdf. unfold io_bind at 1. unfold io_call at 1. rewrite Hopen.
  unfold io_bind at 1. unfold io_call at 1. rewrite Hpost. clear Hpost.
  destruct (parse_pdf_outcomes PdfReader (posted data) "test.pdf" w eq_refl)
    as [[Hno _] | [(_ & cs & r & t & evs & _ & _ & _ & ->) | (_ & e & evs & _ & ->)]].
  - discriminate Hno.
  - split; [discriminate|].
    destruct (script_reads_content r t) as (Hmd & Hpages & Htext).
    unfold io_bind, io_lift, print, io_call, io_ret.
    cbn [fst snd respond http_status http_body status_code json_body is_response].
    change (200 =? 200) with true. cbv iota.
    now rewrite Hmd, Hpages, Htext.
  - split; [discriminate|]. reflexivity.
Qed.

(** X15: the upload test and the handler agree.  [test_parse_pdf] posts
    the bytes of the file under the name [test.pdf], whatever the path, so
    the file name test of the handler passes and the service never answers
    it 400.  When the file opens and the answer of [parse_pdf] reaches the
    script, the script returns [True] exactly when the handler returned a
    response, and [False] when it raised the 500; the members the script
    reads from a response ([metadata], [pages] in it, [text]) are always
    there, so reading them raises nothing. *)
Theorem test_parse_pdf_verdict (pdf_path : string) (data : bytes) (w : world)
    (c : console) :
  open_rb pdf_path = Normal data ->
  requests_post "http://localhost:8001/parse" "test.pdf" data "application/pdf"
  = Normal (respond encode (fst (parse_pdf PdfReader (posted data) w))) ->
  http_status (fst (parse_pdf PdfReader (posted data) w)) <> 400
  /\ fst (test_parse_pdf requests_post open_rb dict_repr pdf_path c)
     = Normal (is_response (fst (parse_pdf PdfReader (posted data) w))).
Proof. apply script_verdict. Qed.

(** X16: the exit status of the script.  Run with a path, against a service
    whose answers reach it (the answer of [health_check] to the GET, the
    answer of [parse_pdf] to the POST) and with a file that opens, the script
    raises nothing; it runs to its last line when the handler returned a
    response for the bytes of the file, and it calls [sys.exit(1)] when the
    handler raised the 500. *)
Theorem main_exit_status (script pdf_path : string) (rest : list string)
    (data : bytes) (w0 w : world) (c : console) :
  requests_get "http://localhost:8001/health"
  = Normal (respond encode (fst (health_check w0))) ->
  open_rb pdf_path = Normal data ->
  requests_post "http://localhost:8001/parse" "test.pdf" data "application/pdf"
  = Normal (respond encode (fst (parse_pdf PdfReader (posted data) w))) ->
  fst (main requests_get requests_post open_rb dict_repr
         (script :: pdf_path :: rest) c)
  = Normal (if is_response (fst (parse_pdf PdfReader (posted data) w))
            then Finished else SystemExit 1).
Proof.
  intros Hget Hopen Hpost. unfold main. cbv zeta.
  rewrite io_bind_fst. cbn [print io_call fst snd].
  rewrite io_bind_fst, (test_health_passes w0 _ Hget). cbn [negb].
  rewrite io_bind_fst. cbn [print io_call fst snd].
  rewrite io_bind_fst. cbn [print io_call fst snd].
  rewrite io_bind_fst.
  destruct (script_verdict pdf_path data w
              (snd (test_health requests_get dict_repr
                      (c ++ [Print ("Testing PDF Parser Service" +:+ LF +:+ str_mul "=" 50)]))
               ++ [Print "✓ Health check passed"]
               ++ [Print (LF +:+ "Testing with PDF: " +:+ pdf_path)])
              Hopen Hpost) as [_ Hverdict].
  rewrite <- app_assoc, Hverdict.
  now destruct (is_response (fst (parse_pdf PdfReader (posted data) w))).
Qed.

End ScriptAgainstService.

Lemma test_parse_pdf_verdict_witness :
  http_status
    (fst (parse_pdf sample_PdfReader (TestScript.posted [x25; x50; x44; x46]) [])) <> 400
  /\ fst (TestScript.test_parse_pdf TestScript.sample_post TestScript.sample_open
            TestScript.sample_dict_repr "report.bin" [])
     = Normal (is_response
                 (fst (parse_pdf sample_PdfReader
                         (TestScript.posted [x25; x50; x44; x46]) []))).
Proof.
  apply (test_parse_pdf_verdict sample_PdfReader TestScript.sample_encode
           TestScript.sample_post TestScript.sample_open TestScript.sample_dict_repr
           "report.bin" [x25; x50; x44; x46] [] []);
    reflexivity.
Defined.

Lemma main_exit_status_witness :
  fst (TestScript.main TestScript.sample_get TestScript.sample_post
         TestScript.sample_open TestScript.sample_dict_repr
         ["test.py"; "scan.bin"] [])
  = Normal (if is_response
                 (fst (parse_pdf sample_PdfReader
                         (TestScript.posted [x25; x50; x44; x46; x00]) []))
            then TestScript.Finished else TestScript.SystemExit 1).
Proof.
  apply (main_exit_status sample_PdfReader TestScript.sample_encode
           TestScript.sample_get TestScript.sample_post TestScript.sample_open
           TestScript.sample_dict_repr "test.py" "scan.bin" []
           [x25; x50; x44; x46; x00] [] [] []);
    reflexivity.
Defined.
